(** * StepFlow AI: the motion analysis engine ([analyzer.py], [models.py])

    A shallow embedding of [MotionAnalyzer] and of the pydantic models it
    consumes and produces, followed by the properties of the engine.

    Numbers.  Python's [float] and NumPy's [float64] are idealised as the
    real numbers [R] of the Standard Library: every arithmetic operation is
    exact.  Rounding, overflow, infinities and NaN are outside this model:
    where the float computation overflows, the program raises
    ([OverflowError] from [**], or a [ValidationError] on a score that
    has become NaN) and the model has nothing to say.  What is proved of
    [analyze] is therefore proved of the results that it returns.
    Integers that the code keeps as Python [int] (loop indices, counters,
    lengths) are [nat]; the result of [round] is a [Z].

    Errors.  A function that can raise returns an [option], [None]
    standing for the exception.  Two exceptions are modelled: the
    [ZeroDivisionError] of Python's [/] on a zero divisor, and pydantic's
    [ValidationError] when a [TimingMetrics] or a [MovementMetrics] is
    constructed with a field out of its declared range.  NumPy's division
    does not raise.

    Comparisons on [R] are the decision procedures [Rlt_dec], [Rle_dec], ...
    of the Standard Library, wrapped as booleans where the code combines
    them with [and].

    The constants of the source are kept as written: the frame time is
    [0.033], the weights [0.25], [0.20], [0.25], [0.15], [0.15]. *)

From Stdlib Require Import String.
From Stdlib Require Import Reals Lra Lia List Bool Arith ZArith.
From Stdlib Require Import Sorted Permutation.
From Stdlib Require PrimFloat.
Import ListNotations.

Open Scope R_scope.

(** ** Python built-ins used by the analyzer *)

Module Py.

(** [a > b], [a <= b], [a >= b] and [a == b] as boolean values. *)
Definition gtb (a b : R) : bool := if Rgt_dec a b then true else false.
Definition leb (a b : R) : bool := if Rle_dec a b then true else false.
Definition geb (a b : R) : bool := if Rge_dec a b then true else false.
Definition eqb (a b : R) : bool := if Req_dec_T a b then true else false.

(** Truth value of an [Optional[float]]: [None] and [0.0] are false. *)
Definition truthy (o : option R) : bool :=
  match o with
  | None => false
  | Some v => negb (eqb v 0)
  end.

(** [v or 0] for an [Optional[float]] [v]. *)
Definition or_zero (o : option R) : R :=
  match o with
  | None => 0
  | Some v => if eqb v 0 then 0 else v
  end.

(** The integer part of a float, rounding down. *)
Definition floor (r : R) : Z := Int_part r.

(** [round(r)] with one argument returns the nearest integer, a tie
    going to the even neighbour. *)
Definition round (r : R) : Z :=
  let f := floor r in
  let d := r - IZR f in
  if Rlt_dec d (1 / 2) then f
  else if Rgt_dec d (1 / 2) then (f + 1)%Z
  else if Z.even f then f else (f + 1)%Z.

(** [a / b] on Python floats and ints: a zero divisor raises
    [ZeroDivisionError]. *)
Definition div (a b : R) : option R :=
  if eqb b 0 then None else Some (a / b).

(** [enumerate(l)] *)
Definition enumerate {A : Type} (l : list A) : list (nat * A) :=
  combine (seq 0 (length l)) l.

End Py.

(** Sequencing of computations that may raise. *)
Definition bind {A B : Type} (e : option A) (k : A -> option B) : option B :=
  match e with
  | Some v => k v
  | None => None
  end.

Notation "x <- e ;; k" := (bind e (fun x => k))
  (at level 61, e at next level, right associativity).

(** ** The NumPy functions used by the analyzer, on one-dimensional arrays *)

Module np.

Definition sum (a : list R) : R := fold_left Rplus a 0.

Definition mean (a : list R) : R := sum a / INR (length a).

(** Population variance ([ddof = 0]): the mean of the squared deviations
    from the mean. *)
Definition var (a : list R) : R :=
  let m := mean a in
  mean (map (fun v => (v - m) * (v - m)) a).

Definition std (a : list R) : R := sqrt (var a).

(** [np.diff]: first differences, [a[i+1] - a[i]]. *)
Fixpoint diff (a : list R) : list R :=
  match a with
  | v0 :: ((v1 :: _) as tl) => (v1 - v0) :: diff tl
  | _ => []
  end.

(** [np.clip(v, lo, hi)] is [minimum(maximum(v, lo), hi)]. *)
Definition clip (v lo hi : R) : R := Rmin (Rmax v lo) hi.

(** Insertion sort, ascending: the order [np.percentile] works on. *)
Fixpoint insert (v : R) (a : list R) : list R :=
  match a with
  | [] => [v]
  | w :: tl => if Rle_dec v w then v :: a else w :: insert v tl
  end.

Fixpoint sort (a : list R) : list R :=
  match a with
  | [] => []
  | v :: tl => insert v (sort tl)
  end.

(** [np.percentile(a, q)] with the default method, linear interpolation,
    for a non-empty [a] and [0 <= q <= 100]: the virtual index
    [(n - 1) * q / 100] lies between two positions of the sorted array
    and the result interpolates between their values. *)
Definition percentile (a : list R) (q : R) : R :=
  let arr := sort a in
  let n := length arr in
  let virtual_index := INR (n - 1) * (q / 100) in
  let previous_index := Z.to_nat (Py.floor virtual_index) in
  let next_index := Nat.min (previous_index + 1) (n - 1) in
  let gamma := virtual_index - INR previous_index in
  let previous := nth previous_index arr 0 in
  let next := nth next_index arr 0 in
  previous + (next - previous) * gamma.

End np.

(** ** Data models ([models.py]) *)

Module KeyPoint.
Record t : Type := mk {
  x : R;
  y : R;
  z : option R;
  confidence : option R
}.
End KeyPoint.

Module Frame.
Record t : Type := mk {
  timestamp : R;
  keypoints : list KeyPoint.t
}.
End Frame.

Module MotionData.
Record t : Type := mk {
  frames : list Frame.t;
  audio_bpm : option R;
  reference_motion : option string
}.
End MotionData.

(** [Field(..., ge=lo, le=hi)] on a float. *)
Definition field_ge_le (lo hi v : R) : bool := Py.geb v lo && Py.leb v hi.

Module TimingMetrics.
Record t : Type := mk {
  avg_lag_ms : R;
  sync_score : R;
  on_beat_percentage : R
}.

(** The constructor call [TimingMetrics(avg_lag_ms=..., sync_score=...,
    on_beat_percentage=...)]: [sync_score] is declared [ge=0.0, le=1.0],
    [on_beat_percentage] [ge=0.0, le=100.0], [avg_lag_ms] is free. *)
Definition new (avg_lag_ms sync_score on_beat_percentage : R) : option t :=
  if field_ge_le 0 1 sync_score && field_ge_le 0 100 on_beat_percentage
  then Some (mk avg_lag_ms sync_score on_beat_percentage)
  else None.
End TimingMetrics.

Module MovementMetrics.
Record t : Type := mk {
  smoothness_score : R;
  accuracy_score : R;
  energy_score : R;
  form_score : R
}.

(** The constructor call [MovementMetrics(...)]: each of the four fields
    is declared [ge=0.0, le=1.0]. *)
Definition new (smoothness_score accuracy_score energy_score form_score : R)
    : option t :=
  if field_ge_le 0 1 smoothness_score && field_ge_le 0 1 accuracy_score
     && field_ge_le 0 1 energy_score && field_ge_le 0 1 form_score
  then Some (mk smoothness_score accuracy_score energy_score form_score)
  else None.
End MovementMetrics.

(** The text of a feedback item.  Every message of the analyzer is a fixed
    string but one, an f-string that renders [on_beat_percentage] with one
    decimal; that one is kept as its argument. *)
Inductive Message : Type :=
| Text (s : string)
| TimingOff (on_beat_percentage : R).

Module FeedbackItem.
Record t : Type := mk {
  category : string;
  message : Message;
  severity : string;
  timestamp : option R
}.
End FeedbackItem.





(** ** The analyzer ([analyzer.py], class [MotionAnalyzer])

    [self] carries one attribute, [scoring_threshold], that no method
    reads; the methods are therefore functions of their other arguments.

    [_analyze_timing], [_analyze_movement] and [analyze] return [None]
    where a division or a constructor raises.  The program raises in one
    more case, a float overflow in the frames' arithmetic, which exact
    numbers do not have. *)

Module MotionAnalyzer.

(** *** Kinematics: [_calculate_velocities], [_calculate_accelerations] *)

(** One turn of the inner loop of [_calculate_velocities]: the keypoint
    [kp_curr] at position [j] of the current frame is paired with the
    keypoint at the same position of the previous frame, when there is
    one ([j < len(frames[i-1].keypoints)]). *)
Definition displacement_step (prev_keypoints : list KeyPoint.t)
    (acc : R * nat) (item : nat * KeyPoint.t) : R * nat :=
  let '(displacement, count) := acc in
  let '(j, kp_curr) := item in
  match nth_error prev_keypoints j with
  | Some kp_prev =>
      let dx := KeyPoint.x kp_curr - KeyPoint.x kp_prev in
      let dy := KeyPoint.y kp_curr - KeyPoint.y kp_prev in
      let dz :=
        Py.or_zero (KeyPoint.z kp_curr) - Py.or_zero (KeyPoint.z kp_prev) in
      (displacement + sqrt (dx ^ 2 + dy ^ 2 + dz ^ 2), S count)
  | None => acc
  end.

(** The inner loop, from [displacement = 0.0] and [count = 0], and the
    average it yields, [displacement / max(count, 1)]. *)
Definition avg_displacement (prev curr : Frame.t) : R :=
  let '(displacement, count) :=
    fold_left (displacement_step (Frame.keypoints prev))
              (Py.enumerate (Frame.keypoints curr)) (0, O) in
  displacement / INR (Nat.max count 1).

(** The time step between two frames, with the guard of the source. *)
Definition time_step (prev curr : Frame.t) : R :=
  let dt := Frame.timestamp curr - Frame.timestamp prev in
  if Rle_dec dt 0 then 0.033 else dt.

(** The body of the outer loop: the velocity appended for [frames[i-1]],
    [frames[i]].  Neither division of the body can raise: [max(count, 1)]
    is at least 1 and the time step is positive. *)
Definition velocity (prev curr : Frame.t) : R :=
  avg_displacement prev curr / time_step prev curr.

(** The outer loop, [for i in range(1, len(frames))], by recursion on the
    frames that follow [prev = frames[i-1]]. *)
Fixpoint velocities_from (prev : Frame.t) (rest : list Frame.t) : list R :=
  match rest with
  | [] => []
  | curr :: tl => velocity prev curr :: velocities_from curr tl
  end.

Definition _calculate_velocities (frames : list Frame.t) : list R :=
  match frames with
  | first :: ((_ :: _) as rest) => velocities_from first rest
  | _ => [0]
  end.

Definition _calculate_accelerations (velocities : list R) : list R :=
  if (length velocities <? 2)%nat then [0] else np.diff velocities.

(** *** Peak detection: [_detect_movement_peaks] *)

(** The test of the loop body at index [i]. *)
Definition is_peak (velocities : list R) (threshold : R) (i : nat) : bool :=
  Py.gtb (nth i velocities 0) threshold
  && Py.gtb (nth i velocities 0) (nth (i - 1) velocities 0)
  && Py.gtb (nth i velocities 0) (nth (i + 1) velocities 0).

(** [for i in range(start, start + steps)], appending to [peaks]. *)
Fixpoint peaks_loop (velocities : list R) (threshold : R)
    (start steps : nat) (peaks : list R) : list R :=
  match steps with
  | O => peaks
  | S steps' =>
      peaks_loop velocities threshold (S start) steps'
        (if is_peak velocities threshold start
         then peaks ++ [INR start * 0.033]
         else peaks)
  end.

(** The parameter [threshold_percentile] has the default 75, which the
    only call of the source, in [_analyze_timing], leaves in place. *)
Definition _detect_movement_peaks (velocities : list R)
    (threshold_percentile : R) : list R :=
  if (length velocities <? 3)%nat then []
  else
    let threshold := np.percentile velocities threshold_percentile in
    peaks_loop velocities threshold 1 (length velocities - 1 - 1) [].


(** *** Timing: [_analyze_timing] *)

(** One turn of the loop over the peaks, on [(on_beat_count, lag_sum)]. *)
Definition timing_step (beat_interval : R) (acc : nat * R) (peak_time : R)
    : option (nat * R) :=
  let '(on_beat_count, lag_sum) := acc in
  beats <- Py.div peak_time beat_interval ;;
  let nearest_beat := IZR (Py.round beats) * beat_interval in
  let lag := Rabs (peak_time - nearest_beat) in
  Some (if Rlt_dec lag 0.1 then S on_beat_count else on_beat_count,
        lag_sum + lag).

(** [for peak_time in peaks], from the state [acc]. *)
Fixpoint timing_loop (beat_interval : R) (peaks : list R) (acc : nat * R)
    : option (nat * R) :=
  match peaks with
  | [] => Some acc
  | peak_time :: tl =>
      acc' <- timing_step beat_interval acc peak_time ;;
      timing_loop beat_interval tl acc'
  end.

(** The statements from [on_beat_count = 0] to [sync_score = ...]: the
    values of [avg_lag_ms], [sync_score] and [on_beat_percentage] that the
    peaks give.  The divisor 200 is a literal. *)
Definition sync_measures (beat_interval : R) (peaks : list R)
    : option (R * R * R) :=
  let total_peaks := length peaks in
  counts <- timing_loop beat_interval peaks (O, 0) ;;
  let '(on_beat_count, lag_sum) := counts in
  mean_lag <- Py.div lag_sum (INR (Nat.max total_peaks 1)) ;;
  let avg_lag_ms := mean_lag * 1000 in
  on_beat_ratio <-
    Py.div (INR on_beat_count) (INR (Nat.max total_peaks 1)) ;;
  let on_beat_percentage := on_beat_ratio * 100 in
  let sync_score := 1 - Rmin (avg_lag_ms / 200) 1 in
  Some (avg_lag_ms, sync_score, on_beat_percentage).

(** The [if]/[else] of [_analyze_timing]: the three values it assigns to
    [avg_lag_ms], [sync_score] and [on_beat_percentage]. *)
Definition timing_measures (motion_data : MotionData.t)
    : option (R * R * R) :=
  let frames := MotionData.frames motion_data in
  match MotionData.audio_bpm motion_data with
  | Some audio_bpm =>
      if Py.truthy (Some audio_bpm) then
        beat_interval <- Py.div 60 audio_bpm ;;
        let velocities := _calculate_velocities frames in
        let peaks := _detect_movement_peaks velocities 75 in
        sync_measures beat_interval peaks
      else Some (0, 1, 100)
  | None => Some (0, 1, 100)
  end.

Definition _analyze_timing (motion_data : MotionData.t)
    : option TimingMetrics.t :=
  measures <- timing_measures motion_data ;;
  let '(avg_lag_ms, sync_score, on_beat_percentage) := measures in
  TimingMetrics.new avg_lag_ms sync_score on_beat_percentage.

(** *** Movement quality: smoothness, energy, accuracy, form *)

Definition _calculate_smoothness (accelerations : list R) : R :=
  if (length accelerations =? 0)%nat then 1
  else
    let variance := np.var accelerations in
    let smoothness := 1 / (1 + variance / 100) in
    np.clip smoothness 0 1.

Definition _calculate_energy (velocities : list R) : R :=
  if (length velocities =? 0)%nat then 0.5
  else
    let avg_velocity := np.mean velocities in
    let energy := avg_velocity / 10 in
    np.clip energy 0 1.

(** The body of the loop of [_calculate_accuracy] for one frame: what it
    appends to [consistency_scores] (nothing for a frame with no
    keypoints). *)
Definition frame_consistency (frame : Frame.t) : list R :=
  let keypoints := Frame.keypoints frame in
  if (length keypoints =? 0)%nat then []
  else
    let center_x := np.mean (map KeyPoint.x keypoints) in
    let center_y := np.mean (map KeyPoint.y keypoints) in
    let distances :=
      map (fun kp => sqrt ((KeyPoint.x kp - center_x) ^ 2
                           + (KeyPoint.y kp - center_y) ^ 2)) keypoints in
    match distances with
    | [] => []
    | _ :: _ => [np.std distances]
    end.

Definition _calculate_accuracy (frames : list Frame.t) : R :=
  if (length frames <? 2)%nat then 1
  else
    let consistency_scores := flat_map frame_consistency frames in
    match consistency_scores with
    | [] => 1
    | _ :: _ =>
        let avg_std := np.mean consistency_scores in
        let accuracy := 1 / (1 + avg_std) in
        np.clip accuracy 0 1
    end.

(** [[kp.confidence for kp in keypoints if kp.confidence is not None]] *)
Definition confidences_of (keypoints : list KeyPoint.t) : list R :=
  flat_map (fun kp => match KeyPoint.confidence kp with
                      | Some c => [c]
                      | None => []
                      end) keypoints.

(** The body of the loop of [_calculate_form] for one frame: what it
    appends to [form_scores]. *)
Definition frame_form (frame : Frame.t) : list R :=
  let keypoints := Frame.keypoints frame in
  if (length keypoints =? 0)%nat then []
  else
    match confidences_of keypoints with
    | [] => []
    | (_ :: _) as confidences => [np.mean confidences]
    end.

Definition _calculate_form (frames : list Frame.t) : R :=
  if (length frames =? 0)%nat then 1
  else
    match flat_map frame_form frames with
    | [] => 0.8
    | (_ :: _) as form_scores => np.clip (np.mean form_scores) 0 1
    end.

Definition _analyze_movement (motion_data : MotionData.t)
    : option MovementMetrics.t :=
  let frames := MotionData.frames motion_data in
  let velocities := _calculate_velocities frames in
  let accelerations := _calculate_accelerations velocities in
  let smoothness_score := _calculate_smoothness accelerations in
  let energy_score := _calculate_energy velocities in
  let accuracy_score := _calculate_accuracy frames in
  let form_score := _calculate_form frames in
  MovementMetrics.new smoothness_score accuracy_score energy_score form_score.

(** *** Feedback: [_generate_feedback] *)

Open Scope string_scope.

Definition timing_warning (on_beat_percentage : R) : FeedbackItem.t :=
  FeedbackItem.mk "timing" (TimingOff on_beat_percentage) "warning" None.

Definition timing_info : FeedbackItem.t :=
  FeedbackItem.mk "timing"
    (Text "Excellent timing! You're perfectly synced with the music.")
    "info" None.

Definition smoothness_warning : FeedbackItem.t :=
  FeedbackItem.mk "form"
    (Text "Your movements are a bit jerky. Focus on flowing smoothly between positions.")
    "warning" None.

Definition energy_low_info : FeedbackItem.t :=
  FeedbackItem.mk "energy"
    (Text "Put more energy into your movements! Go bigger and stronger.")
    "info" None.

Definition energy_high_info : FeedbackItem.t :=
  FeedbackItem.mk "energy"
    (Text "Great energy! Keep up that intensity.")
    "info" None.

Definition form_warning : FeedbackItem.t :=
  FeedbackItem.mk "form"
    (Text "Pay attention to your posture and alignment. Keep your core engaged.")
    "warning" None.

Definition accuracy_warning : FeedbackItem.t :=
  FeedbackItem.mk "accuracy"
    (Text "Your movements are inconsistent. Try to replicate the reference motion more precisely.")
    "warning" None.

Definition overall_info : FeedbackItem.t :=
  FeedbackItem.mk "overall"
    (Text "Outstanding performance! All metrics look great.")
    "info" None.

Close Scope string_scope.

(** The five [if] statements, each taking the list built so far and
    returning it with what the statement appends. *)
Definition timing_feedback (tm : TimingMetrics.t)
    (feedback : list FeedbackItem.t) : list FeedbackItem.t :=
  if Rlt_dec (TimingMetrics.sync_score tm) 0.7
  then feedback ++ [timing_warning (TimingMetrics.on_beat_percentage tm)]
  else if Rge_dec (TimingMetrics.sync_score tm) 0.9
  then feedback ++ [timing_info]
  else feedback.

Definition smoothness_feedback (mm : MovementMetrics.t)
    (feedback : list FeedbackItem.t) : list FeedbackItem.t :=
  if Rlt_dec (MovementMetrics.smoothness_score mm) 0.6
  then feedback ++ [smoothness_warning]
  else feedback.

Definition energy_feedback (mm : MovementMetrics.t)
    (feedback : list FeedbackItem.t) : list FeedbackItem.t :=
  if Rlt_dec (MovementMetrics.energy_score mm) 0.5
  then feedback ++ [energy_low_info]
  else if Rgt_dec (MovementMetrics.energy_score mm) 0.9
  then feedback ++ [energy_high_info]
  else feedback.

Definition form_feedback (mm : MovementMetrics.t)
    (feedback : list FeedbackItem.t) : list FeedbackItem.t :=
  if Rlt_dec (MovementMetrics.form_score mm) 0.7
  then feedback ++ [form_warning]
  else feedback.

Definition accuracy_feedback (mm : MovementMetrics.t)
    (feedback : list FeedbackItem.t) : list FeedbackItem.t :=
  if Rlt_dec (MovementMetrics.accuracy_score mm) 0.7
  then feedback ++ [accuracy_warning]
  else feedback.

(** [if not feedback: feedback.append(...)] *)
Definition overall_feedback (feedback : list FeedbackItem.t)
    : list FeedbackItem.t :=
  match feedback with
  | [] => feedback ++ [overall_info]
  | _ :: _ => feedback
  end.

Definition _generate_feedback (timing_metrics : TimingMetrics.t)
    (movement_metrics : MovementMetrics.t) (motion_data : MotionData.t)
    : list FeedbackItem.t :=
  let feedback := [] in
  let feedback := timing_feedback timing_metrics feedback in
  let feedback := smoothness_feedback movement_metrics feedback in
  let feedback := energy_feedback movement_metrics feedback in
  let feedback := form_feedback movement_metrics feedback in
  let feedback := accuracy_feedback movement_metrics feedback in
  overall_feedback feedback.

(** *** Aggregation: [calculate_overall_score] *)

Definition calculate_overall_score (timing_metrics : TimingMetrics.t)
    (movement_metrics : MovementMetrics.t) : R :=
  let w_timing := 0.25 in
  let w_smoothness := 0.20 in
  let w_accuracy := 0.25 in
  let w_energy := 0.15 in
  let w_form := 0.15 in
  let score :=
    (w_timing * TimingMetrics.sync_score timing_metrics
     + w_smoothness * MovementMetrics.smoothness_score movement_metrics
     + w_accuracy * MovementMetrics.accuracy_score movement_metrics
     + w_energy * MovementMetrics.energy_score movement_metrics
     + w_form * MovementMetrics.form_score movement_metrics) * 100 in
  np.clip score 0 100.

(** *** The entry point: [analyze] *)

Definition analyze (motion_data : MotionData.t)
    : option (TimingMetrics.t * MovementMetrics.t * list FeedbackItem.t) :=
  match _analyze_timing motion_data with
  | None => None
  | Some timing_metrics =>
      match _analyze_movement motion_data with
      | None => None
      | Some movement_metrics =>
          let feedback :=
            _generate_feedback timing_metrics movement_metrics motion_data in
          Some (timing_metrics, movement_metrics, feedback)
      end
  end.

End MotionAnalyzer.

Import MotionAnalyzer.

(** ** The score aggregator on IEEE 754 doubles

    [calculate_overall_score] once more, this time on the binary64 floats
    that Python computes with, for the scenario whose result is stated
    to the last bit. *)

Module Binary64.
Import PrimFloat.

(** Decimal constants denote the nearest double, as they do in Python. *)
Set Warnings "-inexact-float".

(** [np.maximum] and [np.minimum], which propagate NaN. *)
Definition maximum (a b : float) : float :=
  if is_nan a then a else if is_nan b then b
  else if ltb a b then b else a.

Definition minimum (a b : float) : float :=
  if is_nan a then a else if is_nan b then b
  else if ltb b a then b else a.

Definition clip (v lo hi : float) : float := minimum (maximum v lo) hi.

Definition calculate_overall_score
    (sync_score smoothness_score accuracy_score energy_score form_score : float)
    : float :=
  let score :=
    mul (add (add (add (add (mul 0.25%float sync_score)
                            (mul 0.20%float smoothness_score))
                       (mul 0.25%float accuracy_score))
                  (mul 0.15%float energy_score))
             (mul 0.15%float form_score))
        100%float in
  clip score 0%float 100%float.

(** The velocity between two frames of one keypoint each, without depth:
    the displacement over [max(1, 1)], over the time step.  The squares
    [dx**2], ... are written as products. *)
Definition pair_velocity (x0 y0 x1 y1 t0 t1 : float) : float :=
  let dt := sub t1 t0 in
  let dt := if leb dt 0%float then 0.033%float else dt in
  let dx := sub x1 x0 in
  let dy := sub y1 y0 in
  let dz := 0%float in
  let displacement :=
    add 0%float (sqrt (add (add (mul dx dx) (mul dy dy)) (mul dz dz))) in
  div (div displacement 1%float) dt.

End Binary64.

(** ** Vocabulary of the properties *)

(** The seven rows of the rule table of the feedback synthesizer. *)
Definition rule_low_sync (tm : TimingMetrics.t) : Prop :=
  TimingMetrics.sync_score tm < 0.7.
Definition rule_high_sync (tm : TimingMetrics.t) : Prop :=
  TimingMetrics.sync_score tm >= 0.9.
Definition rule_low_smoothness (mm : MovementMetrics.t) : Prop :=
  MovementMetrics.smoothness_score mm < 0.6.
Definition rule_low_energy (mm : MovementMetrics.t) : Prop :=
  MovementMetrics.energy_score mm < 0.5.
Definition rule_high_energy (mm : MovementMetrics.t) : Prop :=
  MovementMetrics.energy_score mm > 0.9.
Definition rule_low_form (mm : MovementMetrics.t) : Prop :=
  MovementMetrics.form_score mm < 0.7.
Definition rule_low_accuracy (mm : MovementMetrics.t) : Prop :=
  MovementMetrics.accuracy_score mm < 0.7.

Definition any_rule_fired (tm : TimingMetrics.t) (mm : MovementMetrics.t)
    : Prop :=
  rule_low_sync tm \/ rule_high_sync tm \/ rule_low_smoothness mm \/
  rule_low_energy mm \/ rule_high_energy mm \/ rule_low_form mm \/
  rule_low_accuracy mm.

(** Items of category [overall]: only the fallback item has it. *)
Definition is_overall (item : FeedbackItem.t) : bool :=
  String.eqb (FeedbackItem.category item) "overall".

(** Category and severity of each item, in order. *)
Definition labels (feedback : list FeedbackItem.t) : list (string * string) :=
  map (fun item => (FeedbackItem.category item, FeedbackItem.severity item))
      feedback.

(** The sample indices that the peak detector reports, in order: the
    interior indices that pass the test of the loop. *)
Definition peak_indices (velocities : list R) : list nat :=
  if (length velocities <? 3)%nat then []
  else filter (is_peak velocities (np.percentile velocities 75))
              (seq 1 (length velocities - 2)).

(** Unit interval and score interval. *)
Definition in_unit (v : R) : Prop := 0 <= v <= 1.
Definition in_percent (v : R) : Prop := 0 <= v <= 100.

(** ** Concrete inputs *)

Module Scenario.

Definition kp_origin : KeyPoint.t := KeyPoint.mk 0 0 None None.
Definition kp_right : KeyPoint.t := KeyPoint.mk 1 0 None None.

(** Two frames a tenth of a second apart, one keypoint moving from
    [(0, 0)] to [(1, 0)], no tempo. *)
Definition two_frames : list Frame.t :=
  [Frame.mk 0 [kp_origin]; Frame.mk 0.1 [kp_right]].
Definition motion : MotionData.t := MotionData.mk two_frames None None.

(** The same two frames with one and the same timestamp. *)
Definition stalled_first : Frame.t := Frame.mk 0 [kp_origin].
Definition stalled_second : Frame.t := Frame.mk 0 [kp_right].
Definition stalled_frames : list Frame.t := [stalled_first; stalled_second].

(** One frame, with a tempo. *)
Definition still : MotionData.t :=
  MotionData.mk [Frame.mk 0 [kp_origin]] (Some 120) None.

(** Four frames a tenth of a second apart, with a tempo: one keypoint of
    confidence 0.9 that rests, steps from [(0, 0)] to [(1, 0)], and rests;
    and the metrics of its analysis. *)
Definition marked (x : R) : KeyPoint.t := KeyPoint.mk x 0 None (Some 0.9).
Definition step_frames : list Frame.t :=
  [Frame.mk 0 [marked 0]; Frame.mk 0.1 [marked 0];
   Frame.mk 0.2 [marked 1]; Frame.mk 0.3 [marked 1]].
Definition step : MotionData.t := MotionData.mk step_frames (Some 120) None.
Definition step_timing : TimingMetrics.t := TimingMetrics.mk 33 0.835 100.
Definition step_movement : MovementMetrics.t :=
  MovementMetrics.mk 0.5 1 (1 / 3) 0.9.

(** A velocity sequence with one spike in the middle. *)
Definition spike : list R := [0; 1; 0].

End Scenario.

(** ** Further vocabulary *)

(** The distance that the inner loop of [_calculate_velocities] adds for
    one pair of keypoints. *)
Definition pair_distance (kp_prev kp_curr : KeyPoint.t) : R :=
  let dx := KeyPoint.x kp_curr - KeyPoint.x kp_prev in
  let dy := KeyPoint.y kp_curr - KeyPoint.y kp_prev in
  let dz := Py.or_zero (KeyPoint.z kp_curr) - Py.or_zero (KeyPoint.z kp_prev) in
  sqrt (dx ^ 2 + dy ^ 2 + dz ^ 2).

(** The distances of the pairs that two keypoint lists form, position by
    position, up to the shorter list. *)
Definition pair_distances (prev curr : list KeyPoint.t) : list R :=
  map (fun pq => pair_distance (fst pq) (snd pq)) (combine prev curr).

(** A running sum from [0.0], in the order of the list. *)
Definition running_sum (a : list R) : R := fold_left Rplus a 0.

(** [l1] is [l2] with some elements left out, the order kept. *)
Inductive Subsequence {A : Type} : list A -> list A -> Prop :=
| Subsequence_nil : Subsequence [] []
| Subsequence_skip (v : A) (l1 l2 : list A) :
    Subsequence l1 l2 -> Subsequence l1 (v :: l2)
| Subsequence_take (v : A) (l1 l2 : list A) :
    Subsequence l1 l2 -> Subsequence (v :: l1) (v :: l2).

(** The categories of the items, in order. *)
Definition categories (feedback : list FeedbackItem.t) : list string :=
  map FeedbackItem.category feedback.

(** The order in which the five statements of [_generate_feedback] append. *)
Definition emission_order : list string :=
  ["timing"; "form"; "energy"; "form"; "accuracy"]%string.

Definition is_warning (item : FeedbackItem.t) : bool :=
  String.eqb (FeedbackItem.severity item) "warning".


(** ** Auxiliary facts *)

(** *** Comparisons *)

Lemma gtb_true_iff (a b : R) : Py.gtb a b = true <-> a > b.
Proof. unfold Py.gtb. destruct (Rgt_dec a b); split; intros; easy. Qed.

Lemma eqb_true_iff (a b : R) : Py.eqb a b = true <-> a = b.
Proof. unfold Py.eqb. destruct (Req_dec_T a b); split; intros; easy. Qed.

Lemma truthy_Some (v : R) : Py.truthy (Some v) = true <-> v <> 0.
Proof.
  unfold Py.truthy, Py.eqb.
  destruct (Req_dec_T v 0); simpl; split; intros; easy.
Qed.

Lemma or_zero_value (o : option R) :
  Py.or_zero o = match o with Some v => v | None => 0 end.
Proof.
  destruct o as [v|]; simpl; [|reflexivity].
  unfold Py.eqb. destruct (Req_dec_T v 0); congruence.
Qed.

(** *** Clipping *)

Lemma clip_range (v lo hi : R) : lo <= hi -> lo <= np.clip v lo hi <= hi.
Proof.
  intros Hle. unfold np.clip, Rmin, Rmax.
  destruct (Rle_dec v lo); destruct (Rle_dec _ hi); lra.
Qed.

Lemma clip_id (v lo hi : R) : lo <= v <= hi -> np.clip v lo hi = v.
Proof.
  intros Hv. unfold np.clip, Rmin, Rmax.
  destruct (Rle_dec v lo); destruct (Rle_dec _ hi); lra.
Qed.

(** *** Sorting

    [np.sort] returns its argument rearranged in ascending order. *)

Lemma insert_permutation (v : R) (a : list R) :
  Permutation (np.insert v a) (v :: a).
Proof.
  induction a as [|w tl IH]; cbn.
  - apply Permutation_refl.
  - destruct (Rle_dec v w).
    + apply Permutation_refl.
    + rewrite IH. apply perm_swap.
Qed.

Lemma sort_permutation (a : list R) : Permutation (np.sort a) a.
Proof.
  induction a as [|v tl IH]; cbn.
  - apply perm_nil.
  - rewrite insert_permutation. now apply perm_skip.
Qed.

Lemma sort_length (a : list R) : length (np.sort a) = length a.
Proof. apply Permutation_length, sort_permutation. Qed.

Lemma insert_head (v w : R) (a : list R) :
  w <= v -> HdRel Rle w a -> HdRel Rle w (np.insert v a).
Proof.
  intros Hwv Hhd. destruct a as [|u tl]; cbn.
  - now constructor.
  - destruct (Rle_dec v u); constructor; [exact Hwv|].
    now apply HdRel_inv in Hhd.
Qed.

Lemma insert_sorted (v : R) (a : list R) :
  Sorted Rle a -> Sorted Rle (np.insert v a).
Proof.
  induction 1 as [|w tl Hsorted IH Hhd]; cbn.
  - repeat constructor.
  - destruct (Rle_dec v w) as [Hle|Hgt].
    + apply Sorted_cons; [now apply Sorted_cons | now apply HdRel_cons].
    + constructor; [exact IH|].
      apply insert_head; [lra | exact Hhd].
Qed.

Lemma sort_sorted (a : list R) : Sorted Rle (np.sort a).
Proof.
  induction a as [|v tl IH]; cbn.
  - constructor.
  - now apply insert_sorted.
Qed.

(** *** Velocities are never empty *)

Lemma velocities_from_length (prev : Frame.t) (rest : list Frame.t) :
  length (velocities_from prev rest) = length rest.
Proof.
  revert prev. induction rest as [|curr tl IH]; intros prev; simpl.
  - reflexivity.
  - now rewrite IH.
Qed.

Lemma calculate_velocities_length (frames : list Frame.t) :
  length (_calculate_velocities frames) = Nat.max (length frames - 1) 1.
Proof.
  destruct frames as [|first [|second tl]]; simpl; try reflexivity.
  rewrite velocities_from_length. lia.
Qed.

Lemma calculate_velocities_nonempty (frames : list Frame.t) :
  _calculate_velocities frames <> [].
Proof.
  intros Heq. apply (f_equal (@length R)) in Heq.
  rewrite calculate_velocities_length in Heq. simpl in Heq. lia.
Qed.

Lemma max_one_nonzero (n : nat) : INR (Nat.max n 1) <> 0.
Proof. apply not_0_INR. lia. Qed.

(** ** Divisions and constructors *)

Lemma div_Some (a b : R) : b <> 0 -> Py.div a b = Some (a / b).
Proof.
  intros Hb. unfold Py.div, Py.eqb.
  destruct (Req_dec_T b 0); [contradiction | reflexivity].
Qed.

Lemma div_zero (a : R) : Py.div a 0 = None.
Proof.
  unfold Py.div, Py.eqb.
  destruct (Req_dec_T 0 0) as [_|Hne]; [reflexivity | now destruct Hne].
Qed.

Lemma field_ge_le_true (lo hi v : R) :
  lo <= v <= hi -> field_ge_le lo hi v = true.
Proof.
  intros [Hlo Hhi]. unfold field_ge_le, Py.geb, Py.leb.
  destruct (Rge_dec v lo); [|lra]. destruct (Rle_dec v hi); [|lra].
  reflexivity.
Qed.

Lemma field_ge_le_inv (lo hi v : R) :
  field_ge_le lo hi v = true -> lo <= v <= hi.
Proof.
  unfold field_ge_le, Py.geb, Py.leb.
  destruct (Rge_dec v lo); [|discriminate].
  destruct (Rle_dec v hi); [|discriminate].
  intros _. lra.
Qed.

Lemma TimingMetrics_new_Some (avg_lag_ms sync_score on_beat_percentage : R) :
  in_unit sync_score -> in_percent on_beat_percentage ->
  TimingMetrics.new avg_lag_ms sync_score on_beat_percentage =
    Some (TimingMetrics.mk avg_lag_ms sync_score on_beat_percentage).
Proof.
  intros Hs Ho. unfold TimingMetrics.new.
  now rewrite !field_ge_le_true.
Qed.

Lemma MovementMetrics_new_Some (smoothness accuracy energy form : R) :
  in_unit smoothness -> in_unit accuracy -> in_unit energy -> in_unit form ->
  MovementMetrics.new smoothness accuracy energy form =
    Some (MovementMetrics.mk smoothness accuracy energy form).
Proof.
  intros Hs Ha He Hf. unfold MovementMetrics.new.
  now rewrite !field_ge_le_true.
Qed.

(** A constructor that returns has checked its fields. *)
Lemma TimingMetrics_new_inv (avg_lag_ms sync_score on_beat_percentage : R)
    (tm : TimingMetrics.t) :
  TimingMetrics.new avg_lag_ms sync_score on_beat_percentage = Some tm ->
  tm = TimingMetrics.mk avg_lag_ms sync_score on_beat_percentage /\
  in_unit sync_score /\ in_percent on_beat_percentage.
Proof.
  unfold TimingMetrics.new.
  destruct (field_ge_le 0 1 sync_score) eqn:Hs; [|discriminate].
  destruct (field_ge_le 0 100 on_beat_percentage) eqn:Ho; [|discriminate].
  cbn [andb]. intros Heq. injection Heq as <-.
  split; [reflexivity|].
  split; [exact (field_ge_le_inv 0 1 sync_score Hs)|].
  exact (field_ge_le_inv 0 100 on_beat_percentage Ho).
Qed.

Lemma MovementMetrics_new_inv (smoothness accuracy energy form : R)
    (mm : MovementMetrics.t) :
  MovementMetrics.new smoothness accuracy energy form = Some mm ->
  mm = MovementMetrics.mk smoothness accuracy energy form /\
  in_unit smoothness /\ in_unit accuracy /\ in_unit energy /\ in_unit form.
Proof.
  unfold MovementMetrics.new.
  destruct (field_ge_le 0 1 smoothness) eqn:Hs; [|discriminate].
  destruct (field_ge_le 0 1 accuracy) eqn:Ha; [|discriminate].
  destruct (field_ge_le 0 1 energy) eqn:He; [|discriminate].
  destruct (field_ge_le 0 1 form) eqn:Hf; [|discriminate].
  cbn [andb]. intros Heq. injection Heq as <-.
  split; [reflexivity|].
  split; [exact (field_ge_le_inv 0 1 smoothness Hs)|].
  split; [exact (field_ge_le_inv 0 1 accuracy Ha)|].
  split; [exact (field_ge_le_inv 0 1 energy He)|].
  exact (field_ge_le_inv 0 1 form Hf).
Qed.

(** ** What a returned analysis consists of *)

Lemma analyze_Some_inv (md : MotionData.t) (tm : TimingMetrics.t)
    (mm : MovementMetrics.t) (feedback : list FeedbackItem.t) :
  analyze md = Some (tm, mm, feedback) ->
  _analyze_timing md = Some tm /\ _analyze_movement md = Some mm /\
  feedback = _generate_feedback tm mm md.
Proof.
  unfold analyze.
  destruct (_analyze_timing md) as [tm'|]; [|discriminate].
  destruct (_analyze_movement md) as [mm'|]; [|discriminate].
  intros Heq. injection Heq as <- <- <-. repeat split.
Qed.

Lemma analyze_timing_inv (md : MotionData.t) (tm : TimingMetrics.t) :
  _analyze_timing md = Some tm ->
  exists avg_lag_ms sync_score on_beat_percentage : R,
    timing_measures md = Some (avg_lag_ms, sync_score, on_beat_percentage) /\
    tm = TimingMetrics.mk avg_lag_ms sync_score on_beat_percentage /\
    in_unit sync_score /\ in_percent on_beat_percentage.
Proof.
  unfold _analyze_timing.
  destruct (timing_measures md) as [[[a s] o]|]; [|discriminate].
  cbn [bind]. intros Hnew. exists a, s, o.
  split; [reflexivity|]. now apply TimingMetrics_new_inv.
Qed.

Lemma analyze_movement_inv (md : MotionData.t) (mm : MovementMetrics.t) :
  _analyze_movement md = Some mm ->
  let frames := MotionData.frames md in
  let velocities := _calculate_velocities frames in
  mm = MovementMetrics.mk
         (_calculate_smoothness (_calculate_accelerations velocities))
         (_calculate_accuracy frames)
         (_calculate_energy velocities)
         (_calculate_form frames) /\
  in_unit (MovementMetrics.smoothness_score mm) /\
  in_unit (MovementMetrics.accuracy_score mm) /\
  in_unit (MovementMetrics.energy_score mm) /\
  in_unit (MovementMetrics.form_score mm).
Proof.
  unfold _analyze_movement. intros Hnew. cbn zeta.
  apply MovementMetrics_new_inv in Hnew.
  destruct Hnew as (-> & Hs & Ha & He & Hf).
  cbn [MovementMetrics.smoothness_score MovementMetrics.accuracy_score
       MovementMetrics.energy_score MovementMetrics.form_score].
  split; [reflexivity|]. split; [exact Hs|]. split; [exact Ha|].
  split; [exact He | exact Hf].
Qed.

Lemma analyze_Some_intro (md : MotionData.t) (tm : TimingMetrics.t)
    (mm : MovementMetrics.t) :
  _analyze_timing md = Some tm -> _analyze_movement md = Some mm ->
  analyze md = Some (tm, mm, _generate_feedback tm mm md).
Proof. intros Htm Hmm. unfold analyze. now rewrite Htm, Hmm. Qed.

(** ** The timing measures of an empty list of peaks *)

(** With no peak the loop does not run; both quotients are [0] over
    [max(0, 1) = 1] and neither division raises. *)
Lemma sync_measures_nil (beat_interval : R) :
  sync_measures beat_interval [] = Some (0, 1, 0).
Proof.
  unfold sync_measures. cbn [timing_loop bind length Nat.max INR].
  rewrite div_Some by lra. cbn [bind].
  unfold Rmin. destruct (Rle_dec _ 1); do 3 f_equal; lra.
Qed.

(** The timing analysis of an input with a tempo other than 0, given the
    peaks of its velocities. *)
Lemma analyze_timing_with_tempo (md : MotionData.t) (bpm : R) :
  MotionData.audio_bpm md = Some bpm -> bpm <> 0 ->
  timing_measures md =
    sync_measures (60 / bpm)
      (_detect_movement_peaks
         (_calculate_velocities (MotionData.frames md)) 75).
Proof.
  intros Hbpm Hnz. unfold timing_measures. rewrite Hbpm.
  destruct (Py.truthy (Some bpm)) eqn:Ht.
  - now rewrite (div_Some 60 bpm Hnz).
  - apply truthy_Some in Hnz. congruence.
Qed.

(** The timing analysis of an input without tempo. *)
Lemma analyze_timing_no_tempo (frames : list Frame.t)
    (reference_motion : option string) :
  _analyze_timing (MotionData.mk frames None reference_motion) =
    Some (TimingMetrics.mk 0 1 100).
Proof.
  unfold _analyze_timing, timing_measures.
  cbn [MotionData.audio_bpm bind].
  apply TimingMetrics_new_Some; unfold in_unit, in_percent; lra.
Qed.

(** ** Ranges of two scores *)

Lemma calculate_form_in_unit (frames : list Frame.t) :
  in_unit (_calculate_form frames).
Proof.
  unfold _calculate_form, in_unit.
  destruct (length frames =? 0)%nat; [lra|].
  destruct (flat_map frame_form frames); [lra|].
  apply clip_range; lra.
Qed.


(** ** A single frame, analysed *)

Lemma smoothness_of_zero : _calculate_smoothness [0] = 1.
Proof.
  unfold _calculate_smoothness, np.var, np.mean, np.sum. cbn.
  rewrite clip_id; lra.
Qed.

Lemma energy_of_zero : _calculate_energy [0] = 0.
Proof.
  unfold _calculate_energy, np.mean, np.sum. cbn. rewrite clip_id; lra.
Qed.

(** The timing analysis of one frame returns: there is one velocity, so no
    peak. *)
Lemma single_frame_timing (frame : Frame.t) (audio_bpm : option R)
    (reference_motion : option string) :
  exists tm : TimingMetrics.t,
    _analyze_timing (MotionData.mk [frame] audio_bpm reference_motion) =
      Some tm.
Proof.
  destruct audio_bpm as [bpm|]; [|eexists; apply analyze_timing_no_tempo].
  unfold _analyze_timing, timing_measures.
  cbn [MotionData.audio_bpm MotionData.frames].
  destruct (Py.truthy (Some bpm)) eqn:Ht.
  - apply truthy_Some in Ht. rewrite (div_Some 60 bpm Ht). cbn [bind].
    change (_detect_movement_peaks (_calculate_velocities [frame]) 75)
      with (@nil R).
    rewrite sync_measures_nil. cbn [bind]. eexists.
    apply TimingMetrics_new_Some; unfold in_unit, in_percent; lra.
  - cbn [bind]. eexists.
    apply TimingMetrics_new_Some; unfold in_unit, in_percent; lra.
Qed.

(** The movement analysis of one frame returns, with smoothness 1,
    accuracy 1 and energy 0. *)
Lemma single_frame_movement (frame : Frame.t) (audio_bpm : option R)
    (reference_motion : option string) :
  _analyze_movement (MotionData.mk [frame] audio_bpm reference_motion) =
    Some (MovementMetrics.mk 1 1 0 (_calculate_form [frame])).
Proof.
  unfold _analyze_movement.
  cbn [MotionData.frames _calculate_velocities _calculate_accelerations
       length Nat.ltb Nat.leb].
  rewrite smoothness_of_zero, energy_of_zero.
  change (_calculate_accuracy [frame]) with 1.
  apply MovementMetrics_new_Some;
    try apply calculate_form_in_unit; unfold in_unit; lra.
Qed.

(** ** Timing without tempo, and without peaks *)

(** C3. When [audio_bpm] is absent, whatever the frames, the timing
    analysis returns [avg_lag_ms = 0.0], [sync_score = 1.0] and
    [on_beat_percentage = 100.0]; these are the timing metrics of every
    result that [analyze] returns for such an input. *)
Theorem no_tempo_defaults (frames : list Frame.t)
    (reference_motion : option string) :
  _analyze_timing (MotionData.mk frames None reference_motion) =
    Some (TimingMetrics.mk 0 1 100) /\
  (forall (tm : TimingMetrics.t) (mm : MovementMetrics.t)
          (feedback : list FeedbackItem.t),
     analyze (MotionData.mk frames None reference_motion) =
       Some (tm, mm, feedback) ->
     TimingMetrics.avg_lag_ms tm = 0 /\
     TimingMetrics.sync_score tm = 1 /\
     TimingMetrics.on_beat_percentage tm = 100).
Proof.
  split; [apply analyze_timing_no_tempo|].
  intros tm mm feedback Hanalyze.
  apply analyze_Some_inv in Hanalyze. destruct Hanalyze as (Htm & _ & _).
  rewrite analyze_timing_no_tempo in Htm. injection Htm as <-.
  repeat split.
Qed.

(** C5. When [audio_bpm] is present (and so, being validated as positive,
    not zero) and the peak detector finds no peak in the velocities of the
    frames, the three timing values are computed without error,
    [avg_lag_ms = 0], [sync_score = 1.0] and [on_beat_percentage = 0]:
    the divisor [max(total_peaks, 1)] is 1, where [total_peaks] itself
    would make the division raise.  These are the timing metrics of every
    result that [_analyze_timing], and so [analyze], returns. *)
Theorem zero_peaks_timing (md : MotionData.t) (bpm : R) :
  MotionData.audio_bpm md = Some bpm ->
  bpm <> 0 ->
  _detect_movement_peaks (_calculate_velocities (MotionData.frames md)) 75
    = [] ->
  let peaks :=
    _detect_movement_peaks (_calculate_velocities (MotionData.frames md)) 75
  in
  sync_measures (60 / bpm) peaks = Some (0, 1, 0) /\
  Py.div 0 (INR (Nat.max (length peaks) 1)) = Some 0 /\
  Py.div 0 (INR (length peaks)) = None /\
  (forall tm : TimingMetrics.t,
     _analyze_timing md = Some tm ->
     TimingMetrics.on_beat_percentage tm = 0 /\
     TimingMetrics.avg_lag_ms tm = 0 /\
     TimingMetrics.sync_score tm = 1) /\
  (forall (tm : TimingMetrics.t) (mm : MovementMetrics.t)
          (feedback : list FeedbackItem.t),
     analyze md = Some (tm, mm, feedback) ->
     TimingMetrics.on_beat_percentage tm = 0 /\
     TimingMetrics.avg_lag_ms tm = 0 /\
     TimingMetrics.sync_score tm = 1).
Proof.
  intros Hbpm Hnz Hpeaks. cbn zeta. rewrite Hpeaks.
  assert (Htiming : forall tm : TimingMetrics.t,
            _analyze_timing md = Some tm ->
            TimingMetrics.on_beat_percentage tm = 0 /\
            TimingMetrics.avg_lag_ms tm = 0 /\
            TimingMetrics.sync_score tm = 1).
  { intros tm Htm. apply analyze_timing_inv in Htm.
    destruct Htm as (a & s & o & Hmeasures & -> & _).
    rewrite (analyze_timing_with_tempo md bpm Hbpm Hnz) in Hmeasures.
    rewrite Hpeaks, sync_measures_nil in Hmeasures.
    injection Hmeasures as <- <- <-. repeat split. }
  split; [apply sync_measures_nil|].
  split; [cbn [length Nat.max INR]; rewrite div_Some by lra; f_equal; lra|].
  split; [apply div_zero|].
  split; [exact Htiming|].
  intros tm mm feedback Hanalyze.
  apply analyze_Some_inv in Hanalyze. now apply Htiming.
Qed.

Lemma zero_peaks_timing_witness :
  let peaks :=
    _detect_movement_peaks
      (_calculate_velocities (MotionData.frames Scenario.still)) 75 in
  sync_measures (60 / 120) peaks = Some (0, 1, 0) /\
  Py.div 0 (INR (Nat.max (length peaks) 1)) = Some 0 /\
  Py.div 0 (INR (length peaks)) = None /\
  (forall tm : TimingMetrics.t,
     _analyze_timing Scenario.still = Some tm ->
     TimingMetrics.on_beat_percentage tm = 0 /\
     TimingMetrics.avg_lag_ms tm = 0 /\
     TimingMetrics.sync_score tm = 1) /\
  (forall (tm : TimingMetrics.t) (mm : MovementMetrics.t)
          (feedback : list FeedbackItem.t),
     analyze Scenario.still = Some (tm, mm, feedback) ->
     TimingMetrics.on_beat_percentage tm = 0 /\
     TimingMetrics.avg_lag_ms tm = 0 /\
     TimingMetrics.sync_score tm = 1).
Proof.
  apply (zero_peaks_timing Scenario.still 120);
    [reflexivity | lra | reflexivity].
Defined.

(** ** A single frame *)

(** C10. For a [MotionData] with exactly one frame the velocity sequence is
    [[0.0]] and [analyze] returns [energy_score = 0.0].  For every
    [MotionData] the velocity sequence is non-empty, so the energy score
    of every result that [analyze] returns is the clipped mean and never
    the 0.5 kept for an empty sequence. *)
Theorem single_frame_energy (frame : Frame.t) (audio_bpm : option R)
    (reference_motion : option string) :
  _calculate_velocities [frame] = [0] /\
  (exists (tm : TimingMetrics.t) (mm : MovementMetrics.t)
          (feedback : list FeedbackItem.t),
     analyze (MotionData.mk [frame] audio_bpm reference_motion) =
       Some (tm, mm, feedback) /\
     MovementMetrics.energy_score mm = 0) /\
  (forall md : MotionData.t,
     _calculate_velocities (MotionData.frames md) <> [] /\
     forall (tm : TimingMetrics.t) (mm : MovementMetrics.t)
            (feedback : list FeedbackItem.t),
       analyze md = Some (tm, mm, feedback) ->
       MovementMetrics.energy_score mm =
         np.clip (np.mean (_calculate_velocities (MotionData.frames md)) / 10)
                 0 1).
Proof.
  split; [reflexivity|]. split.
  - destruct (single_frame_timing frame audio_bpm reference_motion)
      as [tm Htm].
    pose proof (single_frame_movement frame audio_bpm reference_motion)
      as Hmm.
    eexists. eexists. eexists.
    split; [exact (analyze_Some_intro _ _ _ Htm Hmm) | reflexivity].
  - intros md. split; [apply calculate_velocities_nonempty|].
    intros tm mm feedback Hanalyze.
    apply analyze_Some_inv in Hanalyze. destruct Hanalyze as (_ & Hmm & _).
    apply analyze_movement_inv in Hmm. cbn zeta in Hmm.
    destruct Hmm as (-> & _).
    cbn [MovementMetrics.energy_score]. unfold _calculate_energy.
    destruct (_calculate_velocities (MotionData.frames md)) eqn:Hv.
    + now apply calculate_velocities_nonempty in Hv.
    + reflexivity.
Qed.

(** ** The feedback synthesizer *)

Ltac decide_thresholds :=
  repeat match goal with
         | |- context [Rlt_dec ?a ?b] => destruct (Rlt_dec a b)
         | |- context [Rgt_dec ?a ?b] => destruct (Rgt_dec a b)
         | |- context [Rge_dec ?a ?b] => destruct (Rge_dec a b)
         end.

(** Every statement before the last only appends to the list it gets. *)
Lemma feedback_before_fallback (tm : TimingMetrics.t) (mm : MovementMetrics.t) :
  let built :=
    accuracy_feedback mm
      (form_feedback mm
         (energy_feedback mm
            (smoothness_feedback mm (timing_feedback tm [])))) in
  (any_rule_fired tm mm -> built <> [] /\ filter is_overall built = []) /\
  (~ any_rule_fired tm mm -> built = []).
Proof.
  unfold any_rule_fired, rule_low_sync, rule_high_sync, rule_low_smoothness,
    rule_low_energy, rule_high_energy, rule_low_form, rule_low_accuracy.
  unfold accuracy_feedback, form_feedback, energy_feedback,
    smoothness_feedback, timing_feedback.
  cbn zeta.
  decide_thresholds; cbn;
    (split;
     [ intros Hany; split; [try discriminate | try reflexivity]; exfalso; lra
     | intros Hnone; try reflexivity; exfalso; apply Hnone; lra ]).
Qed.

(** C9. With [sync_score = 0.5], [smoothness_score = 0.9],
    [energy_score = 0.95], [form_score = 0.9] and [accuracy_score = 0.9]
    (whatever the other two timing metrics and the motion data) the
    synthesizer returns exactly two items, in this order: the timing
    warning, then the high-energy info; nothing else and no fallback. *)
Theorem feedback_ordering_scenario (avg_lag_ms on_beat_percentage : R)
    (md : MotionData.t) :
  let tm := TimingMetrics.mk avg_lag_ms 0.5 on_beat_percentage in
  let mm := MovementMetrics.mk 0.9 0.9 0.95 0.9 in
  _generate_feedback tm mm md =
    [timing_warning on_beat_percentage; energy_high_info] /\
  labels (_generate_feedback tm mm md) =
    [("timing", "warning"); ("energy", "info")]%string /\
  filter is_overall (_generate_feedback tm mm md) = [].
Proof.
  cbn zeta.
  assert (Hfb : _generate_feedback
                  (TimingMetrics.mk avg_lag_ms 0.5 on_beat_percentage)
                  (MovementMetrics.mk 0.9 0.9 0.95 0.9) md =
                [timing_warning on_beat_percentage; energy_high_info]).
  { unfold _generate_feedback, accuracy_feedback, form_feedback,
      energy_feedback, smoothness_feedback, timing_feedback.
    cbn [TimingMetrics.sync_score TimingMetrics.on_beat_percentage
         MovementMetrics.smoothness_score MovementMetrics.energy_score
         MovementMetrics.form_score MovementMetrics.accuracy_score].
    decide_thresholds; try lra. reflexivity. }
  rewrite Hfb. repeat split.
Qed.

(** C4. The synthesizer never returns an empty list.  When none of the
    seven rules fires the result is the fallback item alone; when some
    rule fires no item of the result is the fallback item.  So the
    fallback item occurs exactly once if and only if no rule fired. *)
Theorem feedback_fallback_policy (tm : TimingMetrics.t)
    (mm : MovementMetrics.t) (md : MotionData.t) :
  let feedback := _generate_feedback tm mm md in
  feedback <> [] /\
  (length (filter is_overall feedback) = 1%nat <-> ~ any_rule_fired tm mm) /\
  (~ any_rule_fired tm mm -> feedback = [overall_info]) /\
  (any_rule_fired tm mm -> filter is_overall feedback = []).
Proof.
  cbn zeta. unfold _generate_feedback.
  pose proof (feedback_before_fallback tm mm) as [Hfired Hnone].
  cbn zeta in Hfired, Hnone.
  set (built := accuracy_feedback mm _) in *.
  assert (Hcase : any_rule_fired tm mm \/ ~ any_rule_fired tm mm).
  { unfold any_rule_fired, rule_low_sync, rule_high_sync,
      rule_low_smoothness, rule_low_energy, rule_high_energy,
      rule_low_form, rule_low_accuracy. lra. }
  destruct Hcase as [Hyes | Hno].
  - destruct (Hfired Hyes) as [Hne Hfilter].
    destruct built as [|item rest] eqn:Hbuilt; [congruence|].
    cbn [overall_feedback]. rewrite Hfilter.
    repeat split; try easy.
  - rewrite (Hnone Hno). cbn.
    repeat split; try easy.
Qed.

(** ** The two-frame scenario *)

Lemma mean_singleton (v : R) : np.mean [v] = v.
Proof. unfold np.mean, np.sum. cbn. lra. Qed.

Lemma var_singleton (v : R) : np.var [v] = 0.
Proof.
  unfold np.var. rewrite mean_singleton. cbn [map].
  rewrite mean_singleton. lra.
Qed.

Lemma std_singleton (v : R) : np.std [v] = 0.
Proof. unfold np.std. rewrite var_singleton. apply sqrt_0. Qed.

(** One keypoint moving from [(0, 0)] to [(1, 0)] is displaced by 1,
    whatever the timestamps. *)
Lemma unit_displacement (t0 t1 : R) :
  avg_displacement (Frame.mk t0 [Scenario.kp_origin])
                   (Frame.mk t1 [Scenario.kp_right]) = 1.
Proof.
  unfold avg_displacement. cbn.
  match goal with |- context [sqrt ?e] => replace e with 1 by lra end.
  rewrite sqrt_1. lra.
Qed.

Lemma scenario_velocities : _calculate_velocities Scenario.two_frames = [10].
Proof.
  unfold Scenario.two_frames. cbn [_calculate_velocities velocities_from].
  unfold velocity. rewrite unit_displacement.
  unfold time_step. cbn [Frame.timestamp].
  destruct (Rle_dec (0.1 - 0) 0); [lra|].
  f_equal. lra.
Qed.

Lemma single_keypoint_consistency (t v w : R) (depth conf : option R) :
  frame_consistency (Frame.mk t [KeyPoint.mk v w depth conf]) = [0].
Proof.
  unfold frame_consistency. cbn [Frame.keypoints length Nat.eqb map].
  now rewrite std_singleton.
Qed.

(** C2. Two frames at [0.0] and [0.1], one keypoint each, [(0.0, 0.0)]
    then [(1.0, 0.0)], no depth, no confidence, no tempo: the velocities
    are [[10.0]], the accelerations [[0.0]]; [analyze] returns the timing
    metrics of the no-tempo case and [smoothness_score = 1.0],
    [accuracy_score = 1.0], [energy_score = 1.0], [form_score = 0.8]
    (with them, the two items of praise for timing and energy);
    [calculate_overall_score] returns 97.0 on them. *)
Theorem two_frame_scenario :
  let velocities := _calculate_velocities Scenario.two_frames in
  let tm := TimingMetrics.mk 0 1 100 in
  let mm := MovementMetrics.mk 1 1 1 0.8 in
  velocities = [10] /\
  _calculate_accelerations velocities = [0] /\
  analyze Scenario.motion = Some (tm, mm, [timing_info; energy_high_info]) /\
  MovementMetrics.smoothness_score mm = 1 /\
  MovementMetrics.energy_score mm = 1 /\
  MovementMetrics.form_score mm = 0.8 /\
  MovementMetrics.accuracy_score mm = 1 /\
  calculate_overall_score tm mm = 97.
Proof.
  cbn zeta.
  assert (Hsmooth : _calculate_smoothness [0] = 1).
  { unfold _calculate_smoothness. cbn [length Nat.eqb].
    rewrite var_singleton. rewrite clip_id; lra. }
  assert (Henergy : _calculate_energy [10] = 1).
  { unfold _calculate_energy. cbn [length Nat.eqb].
    rewrite mean_singleton. rewrite clip_id; lra. }
  assert (Hform : _calculate_form Scenario.two_frames = 0.8) by reflexivity.
  assert (Haccuracy : _calculate_accuracy Scenario.two_frames = 1).
  { unfold _calculate_accuracy, Scenario.two_frames,
      Scenario.kp_origin, Scenario.kp_right.
    cbn [length Nat.ltb Nat.leb flat_map].
    rewrite !single_keypoint_consistency. cbn [app].
    unfold np.mean, np.sum. cbn. rewrite clip_id; lra. }
  assert (Hmm : _analyze_movement Scenario.motion =
                Some (MovementMetrics.mk 1 1 1 0.8)).
  { unfold _analyze_movement.
    cbn [Scenario.motion MotionData.frames].
    rewrite scenario_velocities.
    cbn [_calculate_accelerations length Nat.ltb Nat.leb].
    rewrite Hsmooth, Henergy, Hform, Haccuracy.
    apply MovementMetrics_new_Some; unfold in_unit; lra. }
  assert (Htm : _analyze_timing Scenario.motion =
                Some (TimingMetrics.mk 0 1 100)).
  { apply analyze_timing_no_tempo. }
  rewrite scenario_velocities.
  split; [reflexivity|]. split; [reflexivity|]. split.
  - unfold analyze. rewrite Htm, Hmm. do 2 f_equal.
    unfold _generate_feedback, accuracy_feedback, form_feedback,
      energy_feedback, smoothness_feedback, timing_feedback.
    cbn [TimingMetrics.sync_score TimingMetrics.on_beat_percentage
         MovementMetrics.smoothness_score MovementMetrics.energy_score
         MovementMetrics.form_score MovementMetrics.accuracy_score].
    decide_thresholds; try lra. reflexivity.
  - repeat split.
    unfold calculate_overall_score.
    cbn [TimingMetrics.sync_score MovementMetrics.smoothness_score
         MovementMetrics.accuracy_score MovementMetrics.energy_score
         MovementMetrics.form_score].
    rewrite clip_id; lra.
Qed.

(** The same scenario on doubles: the velocity is exactly [10.0] and the
    overall score exactly [97.0]. *)
Module Binary64Facts.
Import PrimFloat.
Set Warnings "-inexact-float".

Example binary64_scenario :
  Binary64.pair_velocity 0 0 1 0 0 0.1 = 10%float /\
  Binary64.calculate_overall_score 1 1 1 1 0.8 = 97%float.
Proof. split; vm_compute; reflexivity. Qed.

End Binary64Facts.

(** ** The guard on the time step *)

(** The velocity at position [i] is the one between frames [i] and
    [i + 1]. *)
Lemma velocities_from_nth (rest : list Frame.t) :
  forall (first : Frame.t) (i : nat) (prev curr : Frame.t),
    nth_error (first :: rest) i = Some prev ->
    nth_error (first :: rest) (S i) = Some curr ->
    nth_error (velocities_from first rest) i = Some (velocity prev curr).
Proof.
  induction rest as [|second tl IH]; intros first i prev curr Hprev Hcurr.
  - destruct i; discriminate.
  - destruct i as [|i].
    + cbn in *. congruence.
    + cbn [velocities_from nth_error] in *. now apply IH.
Qed.

Lemma calculate_velocities_nth (frames : list Frame.t) (i : nat)
    (prev curr : Frame.t) :
  nth_error frames i = Some prev ->
  nth_error frames (S i) = Some curr ->
  nth_error (_calculate_velocities frames) i = Some (velocity prev curr).
Proof.
  intros Hprev Hcurr.
  destruct frames as [|first [|second tl]].
  - destruct i; discriminate.
  - destruct i; discriminate.
  - cbn [_calculate_velocities]. now apply velocities_from_nth.
Qed.

(** C6, as the code has it.  For two consecutive frames whose timestamp
    difference is zero or negative, the velocity is the average keypoint
    displacement divided by the constant 0.033 (the source's
    approximation of a 30 fps frame time), not by 1/30. *)
Theorem nonpositive_dt_default (frames : list Frame.t) (i : nat)
    (prev curr : Frame.t) :
  nth_error frames i = Some prev ->
  nth_error frames (S i) = Some curr ->
  Frame.timestamp curr - Frame.timestamp prev <= 0 ->
  nth_error (_calculate_velocities frames) i =
    Some (avg_displacement prev curr / 0.033).
Proof.
  intros Hprev Hcurr Hdt.
  rewrite (calculate_velocities_nth frames i prev curr Hprev Hcurr).
  unfold velocity, time_step.
  destruct (Rle_dec _ 0); [reflexivity | contradiction].
Qed.

Lemma nonpositive_dt_default_witness :
  nth_error (_calculate_velocities Scenario.stalled_frames) 0 =
    Some (avg_displacement Scenario.stalled_first Scenario.stalled_second
          / 0.033).
Proof.
  apply (nonpositive_dt_default Scenario.stalled_frames 0
           Scenario.stalled_first Scenario.stalled_second);
    [reflexivity | reflexivity | cbn; lra].
Defined.

(** C6, as the specification states it, fails: with two frames of equal timestamps
    and a displacement of 1, the velocity is [1 / 0.033], which is not
    the displacement divided by 1/30. *)
Lemma nonpositive_dt_not_one_thirtieth :
  Frame.timestamp Scenario.stalled_second
    - Frame.timestamp Scenario.stalled_first <= 0 /\
  nth_error Scenario.stalled_frames 0 = Some Scenario.stalled_first /\
  nth_error Scenario.stalled_frames 1 = Some Scenario.stalled_second /\
  nth_error (_calculate_velocities Scenario.stalled_frames) 0 <>
    Some (avg_displacement Scenario.stalled_first Scenario.stalled_second
          / (1 / 30)).
Proof.
  split; [cbn; lra|]. split; [reflexivity|]. split; [reflexivity|].
  rewrite (calculate_velocities_nth Scenario.stalled_frames 0
             Scenario.stalled_first Scenario.stalled_second)
    by reflexivity.
  unfold velocity, time_step, Scenario.stalled_first, Scenario.stalled_second.
  rewrite unit_displacement. cbn [Frame.timestamp].
  destruct (Rle_dec (0 - 0) 0); [|lra].
  intros Heq. injection Heq as Heq. lra.
Qed.

(** ** The peak detector *)

(** What the loop appends: the timestamps of the indices of its range
    that pass the test, in increasing order. *)
Lemma peaks_loop_spec (velocities : list R) (threshold : R) (steps : nat) :
  forall (start : nat) (peaks : list R),
    peaks_loop velocities threshold start steps peaks =
    peaks ++ map (fun i => INR i * 0.033)
                 (filter (is_peak velocities threshold) (seq start steps)).
Proof.
  induction steps as [|steps IH]; intros start peaks.
  - cbn. now rewrite app_nil_r.
  - cbn [peaks_loop seq filter]. rewrite IH.
    destruct (is_peak velocities threshold start).
    + cbn [map]. now rewrite <- app_assoc.
    + reflexivity.
Qed.

Lemma is_peak_true_iff (velocities : list R) (threshold : R) (i : nat) :
  is_peak velocities threshold i = true <->
  nth i velocities 0 > threshold /\
  nth i velocities 0 > nth (i - 1) velocities 0 /\
  nth i velocities 0 > nth (i + 1) velocities 0.
Proof.
  unfold is_peak. rewrite !andb_true_iff, !gtb_true_iff. tauto.
Qed.

Lemma peak_time_injective (i j : nat) :
  INR i * 0.033 = INR j * 0.033 -> i = j.
Proof. intros Heq. apply INR_eq. lra. Qed.

(** Membership in the result, for a sequence of three samples or more. *)
Lemma detect_movement_peaks_In (velocities : list R) (i : nat) :
  (3 <= length velocities)%nat ->
  In (INR i * 0.033) (_detect_movement_peaks velocities 75) <->
  (1 <= i <= length velocities - 2)%nat /\
  is_peak velocities (np.percentile velocities 75) i = true.
Proof.
  intros Hlen.
  unfold _detect_movement_peaks.
  destruct (Nat.ltb_spec (length velocities) 3) as [Hlt|_]; [lia|].
  rewrite peaks_loop_spec. cbn [app].
  rewrite in_map_iff. split.
  - intros (j & Heq & Hin). apply peak_time_injective in Heq. subst j.
    apply filter_In in Hin. destruct Hin as [Hseq Hpeak].
    apply in_seq in Hseq. split; [lia | exact Hpeak].
  - intros [Hrange Hpeak]. exists i. split; [reflexivity|].
    apply filter_In. split; [apply in_seq; lia | exact Hpeak].
Qed.

Lemma short_sequence_no_peaks (velocities : list R) :
  (length velocities < 3)%nat -> _detect_movement_peaks velocities 75 = [].
Proof.
  intros Hlen. unfold _detect_movement_peaks.
  now destruct (Nat.ltb_spec (length velocities) 3) as [_|Hge]; [|lia].
Qed.

(** Whatever the length, an index outside [1 .. len - 2] is not reported. *)
Lemma boundary_never_peak (velocities : list R) (i : nat) :
  ~ (1 <= i <= length velocities - 2)%nat ->
  ~ In (INR i * 0.033) (_detect_movement_peaks velocities 75).
Proof.
  intros Hout Hin.
  destruct (Nat.lt_ge_cases (length velocities) 3) as [Hlt|Hge].
  - now rewrite short_sequence_no_peaks in Hin.
  - apply detect_movement_peaks_In in Hin; [|exact Hge]. tauto.
Qed.

(** C7, as the code has it.  The peak detector returns, for each reported
    sample index in increasing order, that index multiplied by the
    constant 0.033 (the source's approximation of a 30 fps frame time);
    the frames' own timestamps play no part, the detector does not see
    them. *)
Theorem peak_timestamps (velocities : list R) :
  _detect_movement_peaks velocities 75 =
    map (fun i => INR i * 0.033) (peak_indices velocities).
Proof.
  unfold _detect_movement_peaks, peak_indices.
  destruct (length velocities <? 3)%nat; [reflexivity|].
  rewrite peaks_loop_spec. cbn [app].
  now replace (length velocities - 1 - 1)%nat with (length velocities - 2)%nat
    by lia.
Qed.

(** The sorted spike and its 75th percentile. *)
Lemma spike_percentile : np.percentile Scenario.spike 75 = 0.5.
Proof.
  unfold np.percentile, Scenario.spike.
  assert (Hsort : np.sort [0; 1; 0] = [0; 0; 1]).
  { cbn. destruct (Rle_dec 1 0); [lra|].
    cbn. destruct (Rle_dec 0 0); [|lra]. reflexivity. }
  rewrite Hsort. cbn [length Nat.sub].
  assert (Hfloor : Py.floor (INR 2 * (75 / 100)) = 1%Z).
  { unfold Py.floor. symmetry. apply Int_part_spec. cbn. lra. }
  rewrite Hfloor. change (Z.to_nat 1) with 1%nat. cbn. lra.
Qed.

Lemma spike_peaks : _detect_movement_peaks Scenario.spike 75 = [1 * 0.033].
Proof.
  unfold _detect_movement_peaks.
  rewrite spike_percentile. unfold Scenario.spike.
  cbn [length Nat.ltb Nat.leb Nat.sub peaks_loop].
  assert (Hpeak : is_peak [0; 1; 0] 0.5 1 = true).
  { apply is_peak_true_iff. cbn. lra. }
  rewrite Hpeak. reflexivity.
Qed.

(** C7, as the specification states it, fails: the spike [[0; 1; 0]] has its one peak
    at index 1, reported at [0.033], not at [1 * 1/30]. *)
Lemma peak_timestamp_not_one_thirtieth :
  peak_indices Scenario.spike = [1%nat] /\
  _detect_movement_peaks Scenario.spike 75 <>
    map (fun i => INR i * (1 / 30)) (peak_indices Scenario.spike).
Proof.
  assert (Hidx : peak_indices Scenario.spike = [1%nat]).
  { unfold peak_indices. rewrite spike_percentile. unfold Scenario.spike.
    cbn [length Nat.ltb Nat.leb Nat.sub seq filter].
    assert (Hpeak : is_peak [0; 1; 0] 0.5 1 = true).
    { apply is_peak_true_iff. cbn. lra. }
    now rewrite Hpeak. }
  split; [exact Hidx|].
  rewrite Hidx, spike_peaks. cbn [map INR].
  intros Heq. injection Heq as Heq. lra.
Qed.

(** C8. A sequence of fewer than three samples has no peak.  In a longer
    one, an interior index [i] ([1 <= i <= len - 2]) is reported exactly
    when its sample exceeds the 75th percentile of the sequence and is
    strictly greater than both neighbours, so a sample equal to a
    neighbour is not reported; the first and the last index never are. *)
Theorem peak_characterisation (velocities : list R) :
  ((length velocities < 3)%nat -> _detect_movement_peaks velocities 75 = []) /\
  ((3 <= length velocities)%nat ->
   forall i : nat, (1 <= i <= length velocities - 2)%nat ->
     (In (INR i * 0.033) (_detect_movement_peaks velocities 75) <->
      nth i velocities 0 > np.percentile velocities 75 /\
      nth i velocities 0 > nth (i - 1) velocities 0 /\
      nth i velocities 0 > nth (i + 1) velocities 0) /\
     (nth i velocities 0 = nth (i - 1) velocities 0 \/
      nth i velocities 0 = nth (i + 1) velocities 0 ->
      ~ In (INR i * 0.033) (_detect_movement_peaks velocities 75))) /\
  ~ In (INR 0 * 0.033) (_detect_movement_peaks velocities 75) /\
  ~ In (INR (length velocities - 1) * 0.033)
       (_detect_movement_peaks velocities 75).
Proof.
  split; [apply short_sequence_no_peaks|]. split.
  - intros Hlen i Hrange.
    assert (Hiff : In (INR i * 0.033) (_detect_movement_peaks velocities 75) <->
                   nth i velocities 0 > np.percentile velocities 75 /\
                   nth i velocities 0 > nth (i - 1) velocities 0 /\
                   nth i velocities 0 > nth (i + 1) velocities 0).
    { rewrite (detect_movement_peaks_In velocities i Hlen).
      rewrite is_peak_true_iff. tauto. }
    split; [exact Hiff|].
    intros Heq Hin. apply Hiff in Hin. lra.
  - split; apply boundary_never_peak; lia.
Qed.

(** ** The step scenario *)

Lemma marked_displacement (t0 t1 x0 x1 : R) :
  avg_displacement (Frame.mk t0 [Scenario.marked x0])
                   (Frame.mk t1 [Scenario.marked x1]) = Rabs (x1 - x0).
Proof.
  unfold avg_displacement. cbn.
  match goal with
  | |- context [sqrt ?e] => replace e with (Rsqr (x1 - x0)) by (unfold Rsqr; lra)
  end.
  rewrite sqrt_Rsqr_abs. lra.
Qed.

Lemma step_velocities : _calculate_velocities Scenario.step_frames = [0; 10; 0].
Proof.
  unfold Scenario.step_frames. cbn [_calculate_velocities velocities_from].
  unfold velocity. rewrite !marked_displacement.
  unfold time_step. cbn [Frame.timestamp].
  destruct (Rle_dec (0.1 - 0) 0); [lra|].
  destruct (Rle_dec (0.2 - 0.1) 0); [lra|].
  destruct (Rle_dec (0.3 - 0.2) 0); [lra|].
  replace (0 - 0) with 0 by lra. replace (1 - 1) with 0 by lra.
  replace (1 - 0) with 1 by lra.
  rewrite Rabs_R0, Rabs_R1.
  repeat (f_equal; try lra).
Qed.

Lemma bump_percentile (h : R) :
  0 < h -> np.percentile [0; h; 0] 75 = h / 2.
Proof.
  intros Hh. unfold np.percentile.
  assert (Hsort : np.sort [0; h; 0] = [0; 0; h]).
  { cbn. destruct (Rle_dec h 0); [lra|].
    cbn. destruct (Rle_dec 0 0); [|lra]. reflexivity. }
  rewrite Hsort. cbn [length Nat.sub].
  assert (Hfloor : Py.floor (INR 2 * (75 / 100)) = 1%Z).
  { unfold Py.floor. symmetry. apply Int_part_spec. cbn. lra. }
  rewrite Hfloor. change (Z.to_nat 1) with 1%nat. cbn. lra.
Qed.

Lemma step_peaks :
  _detect_movement_peaks [0; 10; 0] 75 = [INR 1 * 0.033].
Proof.
  unfold _detect_movement_peaks.
  rewrite bump_percentile by lra.
  cbn [length Nat.ltb Nat.leb Nat.sub peaks_loop].
  assert (Hpeak : is_peak [0; 10; 0] (10 / 2) 1 = true).
  { apply is_peak_true_iff. cbn. lra. }
  rewrite Hpeak. reflexivity.
Qed.

Lemma round_small (r : R) : 0 <= r < 1 / 2 -> Py.round r = 0%Z.
Proof.
  intros Hr. unfold Py.round.
  assert (Hfloor : Py.floor r = 0%Z).
  { unfold Py.floor. symmetry. apply Int_part_spec. cbn. lra. }
  rewrite Hfloor. cbn.
  destruct (Rlt_dec (r - 0) (1 / 2)); [reflexivity | lra].
Qed.

Lemma step_timing_measures :
  sync_measures (60 / 120) [INR 1 * 0.033] = Some (33, 0.835, 100).
Proof.
  unfold sync_measures. cbn [timing_loop length Nat.max INR].
  unfold timing_step.
  rewrite div_Some by lra. cbn [bind].
  rewrite round_small by (cbn; lra).
  destruct (Rlt_dec _ 0.1) as [_|Hlag].
  - cbn [bind INR]. rewrite !div_Some by lra. cbn [bind].
    rewrite Rabs_pos_eq by lra.
    unfold Rmin. destruct (Rle_dec _ 1); [|lra].
    do 3 f_equal; lra.
  - exfalso. apply Hlag. rewrite Rabs_pos_eq; lra.
Qed.

Lemma step_timing_analysis :
  _analyze_timing Scenario.step = Some Scenario.step_timing.
Proof.
  unfold _analyze_timing.
  rewrite (analyze_timing_with_tempo Scenario.step 120)
    by (try reflexivity; lra).
  cbn [Scenario.step MotionData.frames].
  rewrite step_velocities, step_peaks, step_timing_measures. cbn [bind].
  apply TimingMetrics_new_Some; unfold in_unit, in_percent; lra.
Qed.








(** ** Bounds of the scores *)



(** ** More on the kinematics *)

Lemma skipn_nth_error_Some {A : Type} (l : list A) (s : nat) (v : A) :
  nth_error l s = Some v -> skipn s l = v :: skipn (S s) l.
Proof.
  revert s. induction l as [|w tl IH]; intros [|s] Hnth; try discriminate.
  - cbn in *. congruence.
  - cbn [nth_error] in Hnth. cbn [skipn]. now apply IH.
Qed.

Lemma skipn_nth_error_None {A : Type} (l : list A) (s : nat) :
  nth_error l s = None -> skipn s l = [] /\ skipn (S s) l = [].
Proof.
  intros Hnth. apply nth_error_None in Hnth.
  split; apply skipn_all2; lia.
Qed.

Lemma displacement_step_eq (prev : list KeyPoint.t) (displacement : R)
    (count j : nat) (kp_curr : KeyPoint.t) :
  displacement_step prev (displacement, count) (j, kp_curr) =
    match nth_error prev j with
    | Some kp_prev => (displacement + pair_distance kp_prev kp_curr, S count)
    | None => (displacement, count)
    end.
Proof. reflexivity. Qed.

(** The inner loop, started at position [s]: it adds, in order, the
    distances of the pairs that the rest of the two keypoint lists form,
    and counts them. *)
Lemma displacement_loop (prev : list KeyPoint.t) (curr : list KeyPoint.t) :
  forall (s : nat) (displacement : R) (count : nat),
    fold_left (displacement_step prev)
              (combine (seq s (length curr)) curr) (displacement, count) =
    (fold_left Rplus (pair_distances (skipn s prev) curr) displacement,
     (count + length (pair_distances (skipn s prev) curr))%nat).
Proof.
  unfold pair_distances.
  induction curr as [|kp tl IH]; intros s displacement count.
  - cbn. rewrite combine_nil. cbn. f_equal. lia.
  - cbn [length seq combine fold_left]. rewrite displacement_step_eq.
    destruct (nth_error prev s) as [kp_prev|] eqn:Hnth.
    + rewrite IH. rewrite (skipn_nth_error_Some prev s kp_prev Hnth).
      cbn [combine map fold_left length fst snd]. f_equal. lia.
    + rewrite IH. destruct (skipn_nth_error_None prev s Hnth) as [-> ->].
      reflexivity.
Qed.

Lemma pair_distances_length (prev curr : list KeyPoint.t) :
  length (pair_distances prev curr) = Nat.min (length prev) (length curr).
Proof. unfold pair_distances. now rewrite length_map, length_combine. Qed.

Lemma avg_displacement_sum (prev curr : Frame.t) :
  avg_displacement prev curr =
    running_sum (pair_distances (Frame.keypoints prev)
                                (Frame.keypoints curr))
    / INR (Nat.max (Nat.min (length (Frame.keypoints prev))
                            (length (Frame.keypoints curr))) 1).
Proof.
  unfold avg_displacement, Py.enumerate, running_sum.
  rewrite displacement_loop. cbn [skipn Nat.add].
  now rewrite pair_distances_length.
Qed.

Lemma combine_firstn_min {A B : Type} (l1 : list A) (l2 : list B) :
  combine (firstn (Nat.min (length l1) (length l2)) l1)
          (firstn (Nat.min (length l1) (length l2)) l2) =
  combine l1 l2.
Proof.
  rewrite <- combine_firstn, <- length_combine. apply firstn_all.
Qed.

(** X1. The average displacement between two frames pairs their keypoints
    by position, up to the shorter of the two lists: it is the running
    sum of the distances of these pairs over their number, or over 1 when
    there is none.  Keypoints beyond the shorter list play no part:
    cutting both lists to the shorter length gives the same average. *)
Theorem avg_displacement_pairs (prev curr : Frame.t) :
  let n := Nat.min (length (Frame.keypoints prev))
                   (length (Frame.keypoints curr)) in
  avg_displacement prev curr =
    running_sum (pair_distances (Frame.keypoints prev)
                                (Frame.keypoints curr))
    / INR (Nat.max n 1) /\
  avg_displacement prev curr =
    avg_displacement
      (Frame.mk (Frame.timestamp prev) (firstn n (Frame.keypoints prev)))
      (Frame.mk (Frame.timestamp curr) (firstn n (Frame.keypoints curr))).
Proof.
  cbn zeta. split; [apply avg_displacement_sum|].
  rewrite !avg_displacement_sum. cbn [Frame.keypoints].
  unfold pair_distances. rewrite combine_firstn_min, !length_firstn.
  do 3 f_equal. lia.
Qed.








(** *** Accelerations *)

Lemma diff_length (a : list R) : length (np.diff a) = (length a - 1)%nat.
Proof.
  induction a as [|v0 [|v1 tl] IH]; try reflexivity.
  cbn [np.diff length] in *. rewrite IH. lia.
Qed.

Lemma diff_nth (a : list R) :
  forall i : nat, (S i < length a)%nat ->
    nth i (np.diff a) 0 = nth (S i) a 0 - nth i a 0.
Proof.
  induction a as [|v0 [|v1 tl] IH]; intros i Hi; cbn [length] in Hi;
    try lia.
  destruct i as [|i].
  - reflexivity.
  - change (nth i (np.diff (v1 :: tl)) 0 =
            nth (S i) (v1 :: tl) 0 - nth i (v1 :: tl) 0).
    apply IH. cbn [length]. lia.
Qed.

(** X3. The accelerations are the first differences of the velocities,
    [v[i+1] - v[i]], one fewer than the velocities; fewer than two
    velocities give the single acceleration [0.0]. *)
Theorem accelerations_shape (velocities : list R) :
  length (_calculate_accelerations velocities) =
    Nat.max (length velocities - 1) 1 /\
  ((length velocities < 2)%nat ->
   _calculate_accelerations velocities = [0]) /\
  (forall i : nat, (S i < length velocities)%nat ->
     nth i (_calculate_accelerations velocities) 0 =
       nth (S i) velocities 0 - nth i velocities 0).
Proof.
  unfold _calculate_accelerations.
  destruct (Nat.ltb_spec (length velocities) 2) as [Hlt|Hge].
  - split; [cbn; lia|]. split; [reflexivity|]. intros i Hi. lia.
  - split; [rewrite diff_length; lia|]. split; [lia|].
    intros i Hi. now apply diff_nth.
Qed.

(** ** More on the movement scores *)

Lemma smoothness_singleton (a : R) : _calculate_smoothness [a] = 1.
Proof.
  unfold _calculate_smoothness. cbn [length Nat.eqb].
  rewrite var_singleton. rewrite clip_id; lra.
Qed.

(** X4. With three frames or fewer there is one acceleration only, which
    has no variance: every result that the movement analysis returns for
    such an input has [smoothness_score = 1.0]. *)
Theorem few_frames_smooth (md : MotionData.t) (mm : MovementMetrics.t) :
  (length (MotionData.frames md) <= 3)%nat ->
  _analyze_movement md = Some mm ->
  MovementMetrics.smoothness_score mm = 1.
Proof.
  intros Hlen Hmm. apply analyze_movement_inv in Hmm. cbn zeta in Hmm.
  destruct Hmm as (-> & _). cbn [MovementMetrics.smoothness_score].
  pose proof (calculate_velocities_length (MotionData.frames md)) as Hv.
  set (velocities := _calculate_velocities (MotionData.frames md)) in *.
  assert (Ha : length (_calculate_accelerations velocities) = 1%nat).
  { unfold _calculate_accelerations.
    destruct (Nat.ltb_spec (length velocities) 2); [reflexivity|].
    rewrite diff_length. lia. }
  destruct (_calculate_accelerations velocities) as [|a [|b tl]];
    try discriminate.
  apply smoothness_singleton.
Qed.

Lemma few_frames_smooth_witness :
  MovementMetrics.smoothness_score
    (MovementMetrics.mk 1 1 0
       (_calculate_form [Frame.mk 0 [Scenario.kp_origin]])) = 1.
Proof.
  apply (few_frames_smooth Scenario.still).
  - cbn. lia.
  - apply single_frame_movement.
Defined.

(** *** Accuracy *)

Lemma fold_left_Rplus_zeros (a : list R) :
  Forall (eq 0) a -> forall acc : R, fold_left Rplus a acc = acc.
Proof.
  induction 1 as [|v tl <- _ IH]; intros acc; cbn.
  - reflexivity.
  - rewrite IH. lra.
Qed.

Lemma mean_zeros (a : list R) : Forall (eq 0) a -> np.mean a = 0.
Proof.
  intros Hall. unfold np.mean, np.sum.
  rewrite (fold_left_Rplus_zeros a Hall). lra.
Qed.

Lemma frame_consistency_single (frame : Frame.t) :
  length (Frame.keypoints frame) = 1%nat -> frame_consistency frame = [0].
Proof.
  intros Hlen. destruct frame as [t [|kp [|kp' tl]]]; try discriminate.
  destruct kp. apply single_keypoint_consistency.
Qed.

Lemma flat_map_single_zero (frames : list Frame.t) :
  Forall (fun frame => length (Frame.keypoints frame) = 1%nat) frames ->
  Forall (eq 0) (flat_map frame_consistency frames).
Proof.
  induction 1 as [|frame tl Hframe _ IH]; cbn [flat_map].
  - constructor.
  - rewrite (frame_consistency_single frame Hframe). now constructor.
Qed.

(** X5. The accuracy score is 1 for any sequence each of whose frames has
    exactly one keypoint: a single point has no spread around its own
    centre, whatever its position. *)
Theorem single_keypoint_accuracy (frames : list Frame.t) :
  Forall (fun frame => length (Frame.keypoints frame) = 1%nat) frames ->
  _calculate_accuracy frames = 1.
Proof.
  intros Hsingle.
  pose proof (flat_map_single_zero frames Hsingle) as Hzero.
  unfold _calculate_accuracy.
  destruct (length frames <? 2)%nat; [reflexivity|].
  destruct (flat_map frame_consistency frames) as [|s tl]; [reflexivity|].
  rewrite (mean_zeros (s :: tl) Hzero).
  rewrite clip_id; lra.
Qed.

Lemma single_keypoint_accuracy_witness :
  _calculate_accuracy Scenario.step_frames = 1.
Proof.
  apply (single_keypoint_accuracy Scenario.step_frames).
  repeat constructor.
Defined.

(** *** Form *)

Lemma flat_map_all_nil {A B : Type} (f : A -> list B) (l : list A) :
  (forall v, In v l -> f v = []) -> flat_map f l = [].
Proof.
  induction l as [|v tl IH]; intros Hnil; [reflexivity|].
  cbn [flat_map]. rewrite (Hnil v (or_introl eq_refl)). cbn [app].
  apply IH. intros w Hin. apply Hnil. now right.
Qed.

Lemma confidences_of_none (keypoints : list KeyPoint.t) :
  (forall kp, In kp keypoints -> KeyPoint.confidence kp = None) ->
  confidences_of keypoints = [].
Proof.
  intros Hnone. unfold confidences_of. apply flat_map_all_nil.
  intros kp Hin. now rewrite (Hnone kp Hin).
Qed.

(** X6. When no keypoint of any frame carries a confidence, the form
    score is the fixed 0.8, however many frames there are and wherever
    the keypoints lie; only for no frame at all is it 1. *)
Theorem form_without_confidence (frames : list Frame.t) :
  (forall frame kp, In frame frames -> In kp (Frame.keypoints frame) ->
                    KeyPoint.confidence kp = None) ->
  _calculate_form frames = match frames with [] => 1 | _ :: _ => 0.8 end.
Proof.
  intros Hnone. unfold _calculate_form.
  destruct frames as [|first tl]; [reflexivity|]. cbn [length Nat.eqb].
  assert (Hempty : flat_map frame_form (first :: tl) = []).
  { apply flat_map_all_nil. intros frame Hframe. unfold frame_form.
    destruct (length (Frame.keypoints frame) =? 0)%nat; [reflexivity|].
    now rewrite (confidences_of_none _ (fun kp => Hnone frame kp Hframe)). }
  now rewrite Hempty.
Qed.

Lemma form_without_confidence_witness :
  _calculate_form Scenario.two_frames = 0.8.
Proof.
  apply (form_without_confidence Scenario.two_frames).
  intros frame kp Hframe Hkp.
  destruct Hframe as [<-|[<-|[]]]; destruct Hkp as [<-|[]]; reflexivity.
Defined.

(** ** More on the overall score *)

Lemma clip_monotone (v w lo hi : R) :
  v <= w -> np.clip v lo hi <= np.clip w lo hi.
Proof.
  intros Hle. unfold np.clip, Rmin, Rmax.
  destruct (Rle_dec v lo); destruct (Rle_dec w lo);
    repeat match goal with
           | |- context [Rle_dec ?a ?b] => destruct (Rle_dec a b)
           end; lra.
Qed.

(** X7. On scores that lie in [[0, 1]], as those of every constructed
    [TimingMetrics] and [MovementMetrics] do, the overall score is the
    weighted sum times 100 and the final clipping changes nothing. *)
Theorem overall_score_weighted (tm : TimingMetrics.t)
    (mm : MovementMetrics.t) :
  in_unit (TimingMetrics.sync_score tm) ->
  in_unit (MovementMetrics.smoothness_score mm) ->
  in_unit (MovementMetrics.accuracy_score mm) ->
  in_unit (MovementMetrics.energy_score mm) ->
  in_unit (MovementMetrics.form_score mm) ->
  calculate_overall_score tm mm =
    (0.25 * TimingMetrics.sync_score tm
     + 0.20 * MovementMetrics.smoothness_score mm
     + 0.25 * MovementMetrics.accuracy_score mm
     + 0.15 * MovementMetrics.energy_score mm
     + 0.15 * MovementMetrics.form_score mm) * 100.
Proof.
  unfold in_unit, calculate_overall_score. intros Hs Hm Ha He Hf.
  rewrite clip_id; lra.
Qed.

Lemma overall_score_weighted_witness :
  calculate_overall_score Scenario.step_timing Scenario.step_movement =
    (0.25 * 0.835 + 0.20 * 0.5 + 0.25 * 1 + 0.15 * (1 / 3) + 0.15 * 0.9)
    * 100.
Proof.
  apply (overall_score_weighted Scenario.step_timing Scenario.step_movement);
    cbn; unfold in_unit; lra.
Defined.

(** X8. The overall score is monotone: raising any of the five scores,
    the others kept or raised too, never lowers it. *)
Theorem overall_score_monotone (tm tm' : TimingMetrics.t)
    (mm mm' : MovementMetrics.t) :
  TimingMetrics.sync_score tm <= TimingMetrics.sync_score tm' ->
  MovementMetrics.smoothness_score mm <= MovementMetrics.smoothness_score mm' ->
  MovementMetrics.accuracy_score mm <= MovementMetrics.accuracy_score mm' ->
  MovementMetrics.energy_score mm <= MovementMetrics.energy_score mm' ->
  MovementMetrics.form_score mm <= MovementMetrics.form_score mm' ->
  calculate_overall_score tm mm <= calculate_overall_score tm' mm'.
Proof.
  intros Hs Hm Ha He Hf. unfold calculate_overall_score.
  apply clip_monotone. lra.
Qed.

Lemma overall_score_monotone_witness :
  calculate_overall_score Scenario.step_timing Scenario.step_movement <=
  calculate_overall_score (TimingMetrics.mk 0 1 100)
                          (MovementMetrics.mk 1 1 1 0.9).
Proof.
  apply (overall_score_monotone
           Scenario.step_timing (TimingMetrics.mk 0 1 100)
           Scenario.step_movement (MovementMetrics.mk 1 1 1 0.9));
    cbn; lra.
Defined.

(** ** More on the feedback *)

Ltac unfold_feedback :=
  unfold _generate_feedback, overall_feedback, accuracy_feedback,
    form_feedback, energy_feedback, smoothness_feedback, timing_feedback.

Ltac solve_subsequence :=
  repeat (first [ apply Subsequence_take
                | apply Subsequence_skip
                | apply Subsequence_nil ]).

Ltac solve_each :=
  repeat (apply Forall_cons; [cbn; auto|]); apply Forall_nil.

Lemma feedback_length (tm : TimingMetrics.t) (mm : MovementMetrics.t)
    (md : MotionData.t) :
  (1 <= length (_generate_feedback tm mm md) <= 5)%nat.
Proof. unfold_feedback. decide_thresholds; cbn; lia. Qed.

Lemma feedback_items (tm : TimingMetrics.t) (mm : MovementMetrics.t)
    (md : MotionData.t) :
  Forall (fun item => FeedbackItem.severity item = "info"%string \/
                      FeedbackItem.severity item = "warning"%string)
         (_generate_feedback tm mm md) /\
  Forall (fun item => FeedbackItem.timestamp item = None)
         (_generate_feedback tm mm md).
Proof.
  unfold_feedback. decide_thresholds; cbn [app]; split; solve_each.
Qed.

Lemma feedback_order (tm : TimingMetrics.t) (mm : MovementMetrics.t)
    (md : MotionData.t) :
  categories (_generate_feedback tm mm md) = ["overall"%string] \/
  Subsequence (categories (_generate_feedback tm mm md)) emission_order.
Proof.
  unfold_feedback. unfold emission_order, categories.
  decide_thresholds; cbn [app map FeedbackItem.category timing_warning
    timing_info smoothness_warning energy_low_info energy_high_info
    form_warning accuracy_warning overall_info];
    first [ left; reflexivity | right; solve_subsequence ].
Qed.

(** X9. The feedback has between one and five items.  Every item has
    severity [info] or [warning], never [critical], and no timestamp.
    The categories come in the fixed order timing, form (smoothness),
    energy, form (posture), accuracy, each position used at most once,
    or the list is the single [overall] item. *)
Theorem feedback_shape (tm : TimingMetrics.t) (mm : MovementMetrics.t)
    (md : MotionData.t) :
  let feedback := _generate_feedback tm mm md in
  (1 <= length feedback <= 5)%nat /\
  Forall (fun item => FeedbackItem.severity item = "info"%string \/
                      FeedbackItem.severity item = "warning"%string)
         feedback /\
  Forall (fun item => FeedbackItem.timestamp item = None) feedback /\
  (categories feedback = ["overall"%string] \/
   Subsequence (categories feedback) emission_order).
Proof.
  cbn zeta.
  split; [apply feedback_length|].
  split; [apply feedback_items|].
  split; [apply feedback_items | apply feedback_order].
Qed.

(** X10. The feedback contains a warning exactly when the timing score is
    below 0.7, the smoothness score below 0.6, the form score below 0.7 or
    the accuracy score below 0.7; the energy score never causes one. *)
Theorem feedback_warning_iff (tm : TimingMetrics.t) (mm : MovementMetrics.t)
    (md : MotionData.t) :
  existsb is_warning (_generate_feedback tm mm md) = true <->
  TimingMetrics.sync_score tm < 0.7 \/
  MovementMetrics.smoothness_score mm < 0.6 \/
  MovementMetrics.form_score mm < 0.7 \/
  MovementMetrics.accuracy_score mm < 0.7.
Proof.
  unfold_feedback.
  decide_thresholds; cbn; split; intros H; try reflexivity;
    try discriminate; lra.
Qed.

(** ** More on the peak detector *)

Lemma detect_peaks_long (velocities : list R) :
  (3 <= length velocities)%nat ->
  _detect_movement_peaks velocities 75 =
    map (fun i => INR i * 0.033)
        (filter (is_peak velocities (np.percentile velocities 75))
                (seq 1 (length velocities - 2))).
Proof.
  intros Hlen. unfold _detect_movement_peaks.
  destruct (Nat.ltb_spec (length velocities) 3) as [Hlt|_]; [lia|].
  rewrite peaks_loop_spec. cbn [app].
  now replace (length velocities - 1 - 1)%nat with (length velocities - 2)%nat
    by lia.
Qed.

(** The timestamps of the indices of a range that pass a test increase,
    and none is before the start of the range. *)
Lemma peak_times_sorted (test : nat -> bool) (steps : nat) :
  forall start : nat,
    StronglySorted Rlt
      (map (fun i => INR i * 0.033) (filter test (seq start steps))) /\
    Forall (fun t => INR start * 0.033 <= t)
      (map (fun i => INR i * 0.033) (filter test (seq start steps))).
Proof.
  induction steps as [|steps IH]; intros start.
  - cbn. split; constructor.
  - destruct (IH (S start)) as [Hsorted Hbound].
    rewrite S_INR in Hbound.
    assert (Hweak : Forall (fun t => INR start * 0.033 <= t)
                      (map (fun i => INR i * 0.033)
                           (filter test (seq (S start) steps)))).
    { apply Forall_impl with (2 := Hbound). intros t Ht. lra. }
    cbn [seq filter]. destruct (test start); cbn [map].
    + split.
      * constructor; [exact Hsorted|].
        apply Forall_impl with (2 := Hbound). intros t Ht. lra.
      * constructor; [lra | exact Hweak].
    + split; [exact Hsorted | exact Hweak].
Qed.

(** X11. The peak timestamps come in strictly increasing order and none
    is before 0.033; two neighbouring samples are never both peaks. *)
Theorem peaks_increasing (velocities : list R) :
  StronglySorted Rlt (_detect_movement_peaks velocities 75) /\
  Forall (fun t => 0.033 <= t) (_detect_movement_peaks velocities 75) /\
  (forall i : nat,
     In (INR i * 0.033) (_detect_movement_peaks velocities 75) ->
     ~ In (INR (S i) * 0.033) (_detect_movement_peaks velocities 75)).
Proof.
  destruct (Nat.lt_ge_cases (length velocities) 3) as [Hlt|Hge].
  - rewrite short_sequence_no_peaks by exact Hlt.
    split; [constructor|]. split; [constructor|]. intros i [].
  - split; [|split].
    + rewrite detect_peaks_long by exact Hge. apply peak_times_sorted.
    + rewrite detect_peaks_long by exact Hge.
      destruct (peak_times_sorted
                  (is_peak velocities (np.percentile velocities 75))
                  (length velocities - 2) 1) as [_ Hbound].
      apply Forall_impl with (2 := Hbound). intros t Ht. cbn in Ht. lra.
    + intros i Hi Hnext.
      apply detect_movement_peaks_In in Hi; [|exact Hge].
      apply detect_movement_peaks_In in Hnext; [|exact Hge].
      destruct Hi as [_ Hi]. destruct Hnext as [_ Hnext].
      apply is_peak_true_iff in Hi. apply is_peak_true_iff in Hnext.
      replace (i + 1)%nat with (S i) in Hi by lia.
      replace (S i - 1)%nat with i in Hnext by lia.
      lra.
Qed.

Lemma filter_none {A : Type} (test : A -> bool) (l : list A) :
  (forall v, In v l -> test v = false) -> filter test l = [].
Proof.
  induction l as [|v tl IH]; intros Hnone; [reflexivity|].
  cbn [filter]. rewrite (Hnone v (or_introl eq_refl)).
  apply IH. intros w Hin. apply Hnone. now right.
Qed.

(** X12. A velocity sequence that never decreases, or never increases,
    has no peak: a peak needs a sample above both of its neighbours. *)
Theorem monotone_no_peaks (velocities : list R) :
  (forall i : nat, (S i < length velocities)%nat ->
     nth i velocities 0 <= nth (S i) velocities 0) \/
  (forall i : nat, (S i < length velocities)%nat ->
     nth (S i) velocities 0 <= nth i velocities 0) ->
  _detect_movement_peaks velocities 75 = [].
Proof.
  intros Hmono.
  destruct (Nat.lt_ge_cases (length velocities) 3) as [Hlt|Hge];
    [now apply short_sequence_no_peaks|].
  rewrite detect_peaks_long by exact Hge.
  rewrite filter_none; [reflexivity|].
  intros i Hi. apply in_seq in Hi.
  destruct (is_peak velocities (np.percentile velocities 75) i) eqn:Hpeak;
    [|reflexivity].
  apply is_peak_true_iff in Hpeak. destruct Hpeak as (_ & Hprev & Hnext).
  destruct Hmono as [Hup|Hdown].
  - specialize (Hup i). replace (i + 1)%nat with (S i) in Hnext by lia.
    assert (S i < length velocities)%nat by lia. specialize (Hup H). lra.
  - specialize (Hdown (i - 1)%nat).
    replace (S (i - 1)) with i in Hdown by lia.
    assert (i < length velocities)%nat by lia. specialize (Hdown H). lra.
Qed.

Lemma monotone_no_peaks_witness :
  _detect_movement_peaks [0; 1; 2] 75 = [].
Proof.
  apply (monotone_no_peaks [0; 1; 2]). left.
  intros i Hi. cbn in Hi.
  destruct i as [|[|i]]; cbn; try lra. lia.
Defined.

(** ** More on the timing *)

Lemma timing_step_lag (beat_interval : R) (acc out : nat * R)
    (peak_time : R) :
  timing_step beat_interval acc peak_time = Some out -> snd acc <= snd out.
Proof.
  destruct acc as [count lag_sum]. unfold timing_step.
  destruct (Py.div peak_time beat_interval) as [beats|]; [|discriminate].
  cbn [bind]. intros Heq. injection Heq as <-. cbn [snd].
  pose proof (Rabs_pos (peak_time - IZR (Py.round beats) * beat_interval)).
  lra.
Qed.

Lemma timing_loop_lag (beat_interval : R) (peaks : list R) :
  forall acc out : nat * R,
    timing_loop beat_interval peaks acc = Some out -> snd acc <= snd out.
Proof.
  induction peaks as [|peak_time tl IH]; intros acc out Hloop.
  - cbn in Hloop. injection Hloop as <-. lra.
  - cbn [timing_loop] in Hloop.
    destruct (timing_step beat_interval acc peak_time) as [acc'|] eqn:Hstep;
      [|discriminate].
    cbn [bind] in Hloop.
    apply timing_step_lag in Hstep. apply IH in Hloop. lra.
Qed.

Lemma div_inv (a b q : R) : Py.div a b = Some q -> b <> 0 /\ q = a / b.
Proof.
  unfold Py.div, Py.eqb. destruct (Req_dec_T b 0); [discriminate|].
  intros Heq. injection Heq as <-. now split.
Qed.

Lemma sync_measures_invariant (beat_interval : R) (peaks : list R)
    (avg_lag_ms sync_score on_beat_percentage : R) :
  sync_measures beat_interval peaks =
    Some (avg_lag_ms, sync_score, on_beat_percentage) ->
  0 <= avg_lag_ms /\ sync_score = 1 - Rmin (avg_lag_ms / 200) 1.
Proof.
  unfold sync_measures.
  destruct (timing_loop beat_interval peaks (O, 0)) as [[count lag_sum]|]
    eqn:Hloop; [|discriminate].
  cbn [bind]. apply timing_loop_lag in Hloop. cbn [snd] in Hloop.
  destruct (Py.div lag_sum _) as [mean_lag|] eqn:Hmean; [|discriminate].
  cbn [bind].
  destruct (Py.div (INR count) _) as [ratio|]; [|discriminate].
  cbn [bind]. intros Heq. injection Heq as <- <- <-.
  split; [|reflexivity].
  apply div_inv in Hmean. destruct Hmean as [_ ->].
  assert (Hden : 0 < INR (Nat.max (length peaks) 1))
    by (apply lt_0_INR; lia).
  apply Rmult_le_pos; [|lra].
  apply Rmult_le_pos; [lra|]. left. now apply Rinv_0_lt_compat.
Qed.

(** X13. Every [TimingMetrics] that the timing analysis returns has an
    average lag that is not negative and a [sync_score] equal to
    [1 - min(avg_lag_ms / 200, 1.0)], in [[0, 1]], also when the tempo is
    absent; its [on_beat_percentage] lies in [[0, 100]]. *)
Theorem timing_invariant (md : MotionData.t) (tm : TimingMetrics.t) :
  _analyze_timing md = Some tm ->
  0 <= TimingMetrics.avg_lag_ms tm /\
  TimingMetrics.sync_score tm =
    1 - Rmin (TimingMetrics.avg_lag_ms tm / 200) 1 /\
  in_unit (TimingMetrics.sync_score tm) /\
  in_percent (TimingMetrics.on_beat_percentage tm).
Proof.
  intros Htm. apply analyze_timing_inv in Htm.
  destruct Htm as (a & s & o & Hmeasures & -> & Hs & Ho).
  cbn [TimingMetrics.avg_lag_ms TimingMetrics.sync_score
       TimingMetrics.on_beat_percentage].
  assert (Hinv : 0 <= a /\ s = 1 - Rmin (a / 200) 1).
  { assert (Hdefault : forall a' s' o' : R,
              Some (0, 1, 100) = Some (a', s', o') ->
              0 <= a' /\ s' = 1 - Rmin (a' / 200) 1).
    { intros a' s' o' Heq. injection Heq as <- <- <-.
      unfold Rmin. destruct (Rle_dec _ 1); lra. }
    unfold timing_measures in Hmeasures.
    destruct (MotionData.audio_bpm md) as [bpm|]; [|now apply Hdefault in Hmeasures].
    destruct (Py.truthy (Some bpm)); [|now apply Hdefault in Hmeasures].
    destruct (Py.div 60 bpm) as [beat_interval|]; [|discriminate].
    cbn [bind] in Hmeasures.
    now apply sync_measures_invariant in Hmeasures. }
  destruct Hinv as [Ha Hsync].
  split; [exact Ha|]. split; [exact Hsync|]. split; [exact Hs | exact Ho].
Qed.

Lemma timing_invariant_witness :
  0 <= TimingMetrics.avg_lag_ms Scenario.step_timing /\
  TimingMetrics.sync_score Scenario.step_timing =
    1 - Rmin (TimingMetrics.avg_lag_ms Scenario.step_timing / 200) 1 /\
  in_unit (TimingMetrics.sync_score Scenario.step_timing) /\
  in_percent (TimingMetrics.on_beat_percentage Scenario.step_timing).
Proof.
  apply (timing_invariant Scenario.step Scenario.step_timing).
  exact step_timing_analysis.
Defined.
